(** * part-4/app.py: the author/book REST API over SQLAlchemy and SQLite

    A shallow embedding of the models ([Author], [Book]), of the unit of
    work the handlers commit through [db.session], and of every route
    handler of [part-4/app.py], followed by the properties of the
    relationship and query layer.

    Modelling conventions.
    - The database is the one the source configures, [sqlite:///api_demo.db],
      opened with SQLite's defaults: [NOT NULL], [UNIQUE] and the primary
      key are enforced, foreign keys are declared but not enforced (the
      source never issues [PRAGMA foreign_keys]), and [String(n)] lengths
      are not enforced.  An [INTEGER PRIMARY KEY] without [AUTOINCREMENT]
      receives the largest rowid plus one.
    - A table is the list of its rows in rowid order, which is the order
      [query.all()] yields them in.
    - Python integers are [Z].  SQLite's INTEGER is a signed 64-bit
      number, and the [sqlite3] driver raises [OverflowError] when a
      statement is given an integer outside that range, before the
      statement runs.  The model makes this check wherever an integer of
      the request reaches a statement: on the id of a by-id route ([by_id],
      which [handle] applies; the handler functions themselves are stated
      for the ids the driver can bind), on the author lookup of
      [create_book], on the [author_id] and [year] of a book that is
      inserted or updated ([exec]), and on the [author_id] filter of the
      search.
    - Strings are [string]: a Python [str] is the sequence of the bytes of
      its UTF-8 encoding.  [lower] and [LIKE] fold the ASCII letters only,
      as SQLite does, and [LIKE] reads both operands up to their first NUL
      ([c_str]).  The wildcard [_] is modelled as one byte, which is one
      character of ASCII text.  SQLite refuses a [LIKE] pattern of more
      than 50000 bytes when it evaluates the operator; [search_rows] does
      not model that refusal, and every statement on the title filter is
      made for patterns within the limit.  [int()] is modelled on ASCII
      strings ([py_int]); outside ASCII it also reads Unicode digits and
      blanks, so the statements on [py_int] are made for ASCII text
      ([is_ascii]).
    - A request body is modelled at the declared column types: the body is
      the JSON document [null] (Python's [None]) or a JSON object in which
      each key a handler reads is absent, [null], or a value of the
      column's type.  Keys that no handler reads do not take part in any
      behaviour and are left out.  Bodies of another shape (an array, a
      number where a string is declared, a request without a JSON body,
      which Flask answers before the handler sees it) are outside the
      model.
    - The clock is an input: a handler that inserts a book receives the
      reading of [datetime.utcnow] the insert will make.
    - A handler is a function from the store (and the request) to a
      response, and to the new store when it commits.  Flask answers an
      exception that escapes a handler with status 500, and an HTTP
      exception such as the one [get_or_404] raises with werkzeug's own
      error page. *)

From Stdlib Require Import ZArith List String Ascii Bool Lia DecimalString.
From Stdlib Require Import DecimalFacts DecimalNat.
Import ListNotations.
Open Scope Z_scope.
Open Scope string_scope.
Open Scope list_scope.

(* ===================================================================== *)
(** ** Python values                                                      *)
(* ===================================================================== *)

(** Exceptions that escape a handler; Flask turns each into a 500. *)
Inductive exn : Type :=
| TypeError
| ValueError
| IntegrityError
| OverflowError.

(** The body of a [jsonify] call. *)
#[local] Set Warnings "-register-all".
Inductive json : Type :=
| JNull
| JBool (b : bool)
| JInt (n : Z)
| JStr (s : string)
| JList (l : list json)
| JDict (kv : list (string * json)).

(** What a request ends in: a [jsonify] body with its status, an HTTP
    exception raised by [get_or_404] (werkzeug renders its own HTML error
    page, no [jsonify] is involved), or an exception nobody catches. *)
Inductive response : Type :=
| Jsonify (body : json) (status : Z)
| HTTPException (code : Z)
| Raise (e : exn).

Definition status_code (r : response) : Z :=
  match r with
  | Jsonify _ s => s
  | HTTPException c => c
  | Raise _ => 500
  end.

(** A key of a JSON request object: missing, [null], or a value. *)
Inductive field (T : Type) : Type :=
| Absent
| Null
| Val (v : T).
Arguments Absent {T}.
Arguments Null {T}.
Arguments Val {T} v.

(** ['k' in data] *)
Definition contains_key {T} (f : field T) : bool :=
  match f with Absent => false | _ => true end.

(** [data.get('k')] *)
Definition dict_get {T} (f : field T) : option T :=
  match f with Val v => Some v | _ => None end.

(** [data['k']] for a key that is present. *)
Definition dict_item {T} (f : field T) : option T := dict_get f.

(** Truth value of an optional string / integer, as [not x] reads it. *)
Definition truthy_str (v : option string) : bool :=
  match v with
  | None => false
  | Some s => negb (s =? "")
  end.

Definition truthy_int (v : option Z) : bool :=
  match v with
  | None => false
  | Some n => negb (n =? 0)%Z
  end.

Definition opt_json {T} (f : T -> json) (v : option T) : json :=
  match v with None => JNull | Some x => f x end.

(* ===================================================================== *)
(** ** datetime                                                           *)
(* ===================================================================== *)

Module Datetime.

Record t : Type := mk {
  year : nat; month : nat; day : nat;
  hour : nat; minute : nat; second : nat; microsecond : nat
}.

Definition digits (n : nat) : string :=
  NilEmpty.string_of_uint (Nat.to_uint n).

Fixpoint zeros (k : nat) : string :=
  match k with
  | O => ""
  | S k' => String "0" (zeros k')
  end.

(** [%0wd] *)
Definition pad (w n : nat) : string :=
  let d := digits n in
  (zeros (w - String.length d) ++ d)%string.

(** [datetime.isoformat()]: the fraction is printed only when it is not
    zero. *)
Definition isoformat (d : t) : string :=
  (pad 4 (year d) ++ "-" ++ pad 2 (month d) ++ "-" ++ pad 2 (day d) ++ "T" ++
   pad 2 (hour d) ++ ":" ++ pad 2 (minute d) ++ ":" ++ pad 2 (second d) ++
   (if Nat.eqb (microsecond d) 0 then ""
    else "." ++ pad 6 (microsecond d)))%string.

End Datetime.

(* ===================================================================== *)
(** ** Models                                                             *)
(* ===================================================================== *)

Module Book.

(** [class Book(db.Model)].  A Python attribute of a nullable-or-not
    column can hold [None]; [NOT NULL] is checked when the row is
    written. *)
Record t : Type := mk {
  id : Z;
  title : option string;
  year : option Z;
  isbn : option string;
  created_at : option Datetime.t;
  author_id : option Z
}.

Definition set_title (v : option string) (b : t) : t :=
  mk (id b) v (year b) (isbn b) (created_at b) (author_id b).
Definition set_author_id (v : option Z) (b : t) : t :=
  mk (id b) (title b) (year b) (isbn b) (created_at b) v.
Definition set_year (v : option Z) (b : t) : t :=
  mk (id b) (title b) v (isbn b) (created_at b) (author_id b).
Definition set_isbn (v : option string) (b : t) : t :=
  mk (id b) (title b) (year b) v (created_at b) (author_id b).

Definition to_dict (b : t) : json :=
  JDict [ ("id", JInt (id b));
          ("title", opt_json JStr (title b));
          ("author_id", opt_json JInt (author_id b));
          ("year", opt_json JInt (year b));
          ("isbn", opt_json JStr (isbn b));
          ("created_at",
           match created_at b with
           | Some d => JStr (Datetime.isoformat d)
           | None => JNull
           end) ].

End Book.

Module Author.

(** [class Author(db.Model)]; [books] is a relationship, not a column. *)
Record t : Type := mk {
  id : Z;
  name : option string;
  bio : option string;
  city : option string
}.

Definition set_name (v : option string) (a : t) : t :=
  mk (id a) v (bio a) (city a).
Definition set_bio (v : option string) (a : t) : t :=
  mk (id a) (name a) v (city a).
Definition set_city (v : option string) (a : t) : t :=
  mk (id a) (name a) (bio a) v.

End Author.

(** The two tables. *)
Record store : Type := mkStore {
  authors : list Author.t;
  books : list Book.t
}.

Definition empty_store : store := mkStore [] [].

(* ===================================================================== *)
(** ** The database: statements, constraints, transactions                *)
(* ===================================================================== *)

(** The statements a flush of the session sends. *)
Inductive stmt : Type :=
| InsertAuthor (name bio city : option string)
| InsertBook (title : option string) (author_id year : option Z)
             (isbn : option string) (created_at : option Datetime.t)
| UpdateAuthor (a : Author.t)
| UpdateBook (b : Book.t)
| DeleteAuthor (id : Z)
| DeleteBook (id : Z).

(** The rowid SQLite gives the next row: one more than the largest one in
    the table, 1 in an empty table. *)
Definition next_id (ids : list Z) : Z :=
  match ids with
  | [] => 1
  | i :: rest => fold_left Z.max rest i + 1
  end.

Definition is_null {T} (v : option T) : bool :=
  match v with None => true | Some _ => false end.

(** The integers [sqlite3] can bind as a statement parameter: those of
    SQLite's 64-bit INTEGER.  Binding any other raises [OverflowError]
    before the statement runs. *)
Definition fits_int64 (k : Z) : bool :=
  (- 2 ^ 63 <=? k)%Z && (k <? 2 ^ 63)%Z.

Definition binds (v : option Z) : bool :=
  match v with
  | Some k => fits_int64 k
  | None => true
  end.

Definition opt_str_eqb (x y : option string) : bool :=
  match x, y with
  | Some a, Some b => (a =? b)%string
  | None, None => true
  | _, _ => false
  end.

Definition opt_Z_eqb (x y : option Z) : bool :=
  match x, y with
  | Some a, Some b => (a =? b)%Z
  | None, None => true
  | _, _ => false
  end.

(** [UNIQUE (isbn)]: another row (one whose id is not [self]) already
    holds this value.  NULLs never collide. *)
Definition isbn_taken (bs : list Book.t) (self : option Z)
           (v : option string) : bool :=
  match v with
  | None => false
  | Some s =>
      existsb (fun b => negb (opt_Z_eqb (Some (Book.id b)) self)
                        && opt_str_eqb (Book.isbn b) (Some s)) bs
  end.

Definition replace_author (a : Author.t) (l : list Author.t) : list Author.t :=
  map (fun x => if (Author.id x =? Author.id a)%Z then a else x) l.

Definition replace_book (b : Book.t) (l : list Book.t) : list Book.t :=
  map (fun x => if (Book.id x =? Book.id b)%Z then b else x) l.

(** One statement against the tables: the new tables and, for an INSERT,
    the primary key it produced; or the exception.  The parameters are
    bound before the statement runs, so an integer that does not fit is
    refused before any constraint is checked.  (An UPDATE carries the
    columns that changed; the stored values of the others fit already.) *)
Definition exec (st : store) (q : stmt) : exn + (store * list Z) :=
  match q with
  | InsertAuthor name bio city =>
      if is_null name then inl IntegrityError
      else
        let k := next_id (map Author.id (authors st)) in
        inr (mkStore (authors st ++ [Author.mk k name bio city]) (books st),
             [k])
  | InsertBook title author_id year isbn created_at =>
      if negb (binds author_id && binds year) then inl OverflowError
      else if is_null title || is_null author_id then inl IntegrityError
      else if isbn_taken (books st) None isbn then inl IntegrityError
      else
        let k := next_id (map Book.id (books st)) in
        inr (mkStore (authors st)
               (books st ++ [Book.mk k title year isbn created_at author_id]),
             [k])
  | UpdateAuthor a =>
      if is_null (Author.name a) then inl IntegrityError
      else inr (mkStore (replace_author a (authors st)) (books st), [])
  | UpdateBook b =>
      if negb (binds (Book.author_id b) && binds (Book.year b))
      then inl OverflowError
      else if is_null (Book.title b) || is_null (Book.author_id b)
      then inl IntegrityError
      else if isbn_taken (books st) (Some (Book.id b)) (Book.isbn b)
      then inl IntegrityError
      else inr (mkStore (authors st) (replace_book b (books st)), [])
  | DeleteAuthor k =>
      inr (mkStore (filter (fun a => negb (Author.id a =? k)%Z) (authors st))
             (books st), [])
  | DeleteBook k =>
      inr (mkStore (authors st)
             (filter (fun b => negb (Book.id b =? k)%Z) (books st)), [])
  end.

(** The statements of one flush, in order, inside one transaction. *)
Fixpoint flush (st : store) (qs : list stmt) : exn + (store * list Z) :=
  match qs with
  | [] => inr (st, [])
  | q :: qs' =>
      match exec st q with
      | inl e => inl e
      | inr (st1, ks1) =>
          match flush st1 qs' with
          | inl e => inl e
          | inr (st2, ks2) => inr (st2, ks1 ++ ks2)
          end
      end
  end.

(** [db.session.commit()]: every statement takes effect, or the
    transaction is rolled back and the exception propagates.  On success
    the primary keys of the inserted rows come back in order. *)
Definition commit (st : store) (qs : list stmt) : (exn + list Z) * store :=
  match flush st qs with
  | inl e => (inl e, st)
  | inr (st', ks) => (inr ks, st')
  end.

(* ===================================================================== *)
(** ** Queries and the relationship                                       *)
(* ===================================================================== *)

(** [Author.query.get(id)] *)
Definition Author_get (st : store) (k : Z) : option Author.t :=
  find (fun a => (Author.id a =? k)%Z) (authors st).

(** [Book.query.get(id)] *)
Definition Book_get (st : store) (k : Z) : option Book.t :=
  find (fun b => (Book.id b =? k)%Z) (books st).

(** [author.books]: the lazy relationship loads the books whose
    [author_id] is this author's id. *)
Definition Author_books (st : store) (a : Author.t) : list Book.t :=
  filter (fun b => opt_Z_eqb (Book.author_id b) (Some (Author.id a)))
         (books st).

(** [Author.to_dict] *)
Definition Author_to_dict (st : store) (a : Author.t) : json :=
  JDict [ ("id", JInt (Author.id a));
          ("name", opt_json JStr (Author.name a));
          ("bio", opt_json JStr (Author.bio a));
          ("city", opt_json JStr (Author.city a));
          ("books",
           JList (map (fun b => opt_json JStr (Book.title b))
                      (Author_books st a))) ].

(** [db.session.delete(author)] with [cascade="all, delete-orphan"]: the
    unit of work deletes each loaded child row, then the parent row. *)
Definition session_delete_author (st : store) (a : Author.t) : list stmt :=
  map (fun b => DeleteBook (Book.id b)) (Author_books st a)
  ++ [DeleteAuthor (Author.id a)].

(* ===================================================================== *)
(** ** Request data                                                       *)
(* ===================================================================== *)

Module AuthorData.

(** The keys the author handlers read from the JSON body. *)
Record t : Type := mk {
  name : field string;
  bio : field string;
  city : field string
}.

(** [not data] for a dict.  An object holding only keys that are never
    read is let through here and stopped by the next test, which finds
    no [name] in it. *)
Definition is_empty (d : t) : bool :=
  negb (contains_key (name d) || contains_key (bio d)
        || contains_key (city d)).

End AuthorData.

Module BookData.

(** The keys the book handlers read from the JSON body. *)
Record t : Type := mk {
  title : field string;
  author_id : field Z;
  year : field Z;
  isbn : field string
}.

Definition is_empty (d : t) : bool :=
  negb (contains_key (title d) || contains_key (author_id d)
        || contains_key (year d) || contains_key (isbn d)).

End BookData.

(** [if 'k' in data: obj.k = data['k']] *)
Definition assign {T O : Type} (f : field T) (set : option T -> O -> O)
           (o : O) : O :=
  if contains_key f then set (dict_item f) o else o.

(** [{'success': False, 'error': msg}] *)
Definition failure (msg : string) : json :=
  JDict [("success", JBool false); ("error", JStr msg)].

Definition count_of {A} (l : list A) : json := JInt (Z.of_nat (List.length l)).

(* ===================================================================== *)
(** ** Author routes                                                      *)
(* ===================================================================== *)

Definition get_authors (st : store) : response :=
  let authors := authors st in
  Jsonify (JDict [("success", JBool true);
                  ("count", count_of authors);
                  ("authors", JList (map (Author_to_dict st) authors))]) 200.

Definition get_author (st : store) (id : Z) : response :=
  match Author_get st id with
  | None => HTTPException 404
  | Some author =>
      Jsonify (JDict [("success", JBool true);
                      ("author", Author_to_dict st author)]) 200
  end.

Definition create_author (st : store) (data : option AuthorData.t)
  : response * store :=
  match data with
  | None => (Jsonify (failure "Name is required") 400, st)
  | Some d =>
      if AuthorData.is_empty d
         || negb (truthy_str (dict_get (AuthorData.name d)))
      then (Jsonify (failure "Name is required") 400, st)
      else
        let name := dict_item (AuthorData.name d) in
        let bio := dict_get (AuthorData.bio d) in
        let city := dict_get (AuthorData.city d) in
        match commit st [InsertAuthor name bio city] with
        | (inl e, st') => (Raise e, st')
        | (inr ks, st') =>
            let new_author := Author.mk (hd 0 ks) name bio city in
            (Jsonify (JDict [("success", JBool true);
                             ("author", Author_to_dict st' new_author)]) 201,
             st')
        end
  end.

Definition update_author (st : store) (id : Z) (data : option AuthorData.t)
  : response * store :=
  match Author_get st id with
  | None => (HTTPException 404, st)
  | Some author =>
      match data with
      | None => (Raise TypeError, st)
      | Some d =>
          let author := assign (AuthorData.name d) Author.set_name author in
          let author := assign (AuthorData.bio d) Author.set_bio author in
          let author := assign (AuthorData.city d) Author.set_city author in
          match commit st [UpdateAuthor author] with
          | (inl e, st') => (Raise e, st')
          | (inr _, st') =>
              (Jsonify (JDict [("success", JBool true);
                               ("author", Author_to_dict st' author)]) 200,
               st')
          end
      end
  end.

Definition delete_author (st : store) (id : Z) : response * store :=
  match Author_get st id with
  | None => (HTTPException 404, st)
  | Some author =>
      match commit st (session_delete_author st author) with
      | (inl e, st') => (Raise e, st')
      | (inr _, st') =>
          (Jsonify (JDict [("success", JBool true);
                           ("message", JStr "Author and their books deleted")])
                   200,
           st')
      end
  end.

(* ===================================================================== *)
(** ** Book routes                                                        *)
(* ===================================================================== *)

Definition books_body (l : list Book.t) : json :=
  JDict [("success", JBool true);
         ("count", count_of l);
         ("books", JList (map Book.to_dict l))].

Definition get_books (st : store) : response :=
  Jsonify (books_body (books st)) 200.

Definition get_book (st : store) (id : Z) : response :=
  match Book_get st id with
  | None => HTTPException 404
  | Some book =>
      Jsonify (JDict [("success", JBool true);
                      ("book", Book.to_dict book)]) 200
  end.

(** [now] is what [datetime.utcnow] returns when the row is inserted. *)
Definition create_book (st : store) (data : option BookData.t)
           (now : Datetime.t) : response * store :=
  match data with
  | None => (Jsonify (failure "Title and author_id are required") 400, st)
  | Some d =>
      if BookData.is_empty d
         || negb (truthy_str (dict_get (BookData.title d)))
         || negb (truthy_int (dict_get (BookData.author_id d)))
      then (Jsonify (failure "Title and author_id are required") 400, st)
      else
        (* Ensure author exists *)
        if negb (binds (dict_item (BookData.author_id d)))
        then (Raise OverflowError, st)
        else
        match match dict_item (BookData.author_id d) with
              | Some k => Author_get st k
              | None => None
              end with
        | None => (Jsonify (failure "Author not found") 404, st)
        | Some _ =>
            let title := dict_item (BookData.title d) in
            let author_id := dict_item (BookData.author_id d) in
            let year := dict_get (BookData.year d) in
            let isbn := dict_get (BookData.isbn d) in
            match commit st [InsertBook title author_id year isbn (Some now)]
            with
            | (inl e, st') => (Raise e, st')
            | (inr ks, st') =>
                let new_book :=
                  Book.mk (hd 0 ks) title year isbn (Some now) author_id in
                (Jsonify (JDict [("success", JBool true);
                                 ("book", Book.to_dict new_book)]) 201,
                 st')
            end
        end
  end.

Definition update_book (st : store) (id : Z) (data : option BookData.t)
  : response * store :=
  match Book_get st id with
  | None => (HTTPException 404, st)
  | Some book =>
      match data with
      | None => (Raise TypeError, st)
      | Some d =>
          let book := assign (BookData.title d) Book.set_title book in
          let book := assign (BookData.author_id d) Book.set_author_id book in
          let book := assign (BookData.year d) Book.set_year book in
          let book := assign (BookData.isbn d) Book.set_isbn book in
          match commit st [UpdateBook book] with
          | (inl e, st') => (Raise e, st')
          | (inr _, st') =>
              (Jsonify (JDict [("success", JBool true);
                               ("book", Book.to_dict book)]) 200,
               st')
          end
      end
  end.

Definition delete_book (st : store) (id : Z) : response * store :=
  match Book_get st id with
  | None => (HTTPException 404, st)
  | Some book =>
      match commit st [DeleteBook (Book.id book)] with
      | (inl e, st') => (Raise e, st')
      | (inr _, st') =>
          (Jsonify (JDict [("success", JBool true);
                           ("message", JStr "Book deleted")]) 200,
           st')
      end
  end.

(* ===================================================================== *)
(** ** Search route                                                       *)
(* ===================================================================== *)

(** Whitespace as [int()] skips it in an ASCII string: TAB, LF, VT, FF,
    CR and the space. *)
Definition is_space (c : ascii) : bool :=
  let n := nat_of_ascii c in
  ((9 <=? n) && (n <=? 13) || (n =? 32))%nat.

Definition digit_of (c : ascii) : option Z :=
  let n := nat_of_ascii c in
  if ((48 <=? n) && (n <=? 57))%nat then Some (Z.of_nat (n - 48)) else None.

Fixpoint lstrip (s : string) : string :=
  match s with
  | String c s' => if is_space c then lstrip s' else s
  | EmptyString => s
  end.

Fixpoint all_space (s : string) : bool :=
  match s with
  | String c s' => is_space c && all_space s'
  | EmptyString => true
  end.

(** The digits after the first one: a single underscore may sit between
    two digits, and only whitespace may follow the number. *)
Fixpoint int_digits (acc : Z) (s : string) : option Z :=
  match s with
  | EmptyString => Some acc
  | String c s' =>
      match digit_of c with
      | Some d => int_digits (acc * 10 + d) s'
      | None =>
          if (c =? "_")%char then
            match s' with
            | String c2 s'' =>
                match digit_of c2 with
                | Some d => int_digits (acc * 10 + d) s''
                | None => None
                end
            | EmptyString => None
            end
          else if all_space s then Some acc else None
      end
  end.

(** The base-ten literal [int()] reads: blanks, a sign, the digits,
    blanks. *)
Definition int_literal (s : string) : option Z :=
  let s := lstrip s in
  let '(sign, s) :=
    match s with
    | String "-" r => (-1, r)
    | String "+" r => (1, r)
    | _ => (1, s)
    end in
  match s with
  | String c r =>
      match digit_of c with
      | Some d => option_map (Z.mul sign) (int_digits d r)
      | None => None
      end
  | EmptyString => None
  end.

Fixpoint count_digits (s : string) : nat :=
  match s with
  | String c s' =>
      (if is_null (digit_of c) then 0 else 1) + count_digits s'
  | EmptyString => 0
  end.

(** CPython's default bound on the digits of a decimal string it converts
    ([sys.int_info.default_max_str_digits]). *)
Definition max_str_digits : nat := 4300.

(** [int(s)] for an ASCII string, base ten: [None] is [ValueError], which
    is raised for a string that is no literal and for one with more
    digits than the bound. *)
Definition py_int (s : string) : option Z :=
  match int_literal s with
  | Some n => if (count_digits s <=? max_str_digits)%nat then Some n else None
  | None => None
  end.

(** SQLite's [lower()]: the 26 ASCII capitals. *)
Definition lower_char (c : ascii) : ascii :=
  let n := nat_of_ascii c in
  if ((65 <=? n) && (n <=? 90))%nat then ascii_of_nat (n + 32) else c.

Fixpoint lower (s : string) : string :=
  match s with
  | String c s' => String (lower_char c) (lower s')
  | EmptyString => EmptyString
  end.

(** SQLite's [LIKE] with no escape character: [%] stands for any run of
    characters, [_] for any one character, and every other character for
    itself up to ASCII case. *)
Fixpoint sql_like (p s : string) : bool :=
  match p with
  | EmptyString =>
      match s with EmptyString => true | String _ _ => false end
  | String c p' =>
      if (c =? "%")%char then
        (fix any (s : string) : bool :=
           sql_like p' s
           || match s with
              | EmptyString => false
              | String _ s' => any s'
              end) s
      else
        match s with
        | EmptyString => false
        | String d s' =>
            ((c =? "_")%char || (lower_char c =? lower_char d)%char)
            && sql_like p' s'
        end
  end.

(** A text value as a C function reads it: up to the first NUL. *)
Fixpoint c_str (s : string) : string :=
  match s with
  | String c s' => if (c =? "000")%char then EmptyString else String c (c_str s')
  | EmptyString => EmptyString
  end.

(** [column.ilike(pattern)], which SQLAlchemy renders for SQLite as
    [lower(column) LIKE lower(pattern)]; NULL matches nothing.  [LIKE]
    reads both operands as NUL-terminated text.  SQLite refuses a pattern
    of more than [like_pattern_limit] bytes when it evaluates the
    operator; the properties below are stated for patterns within the
    limit. *)
Definition ilike (column : option string) (pattern : string) : bool :=
  match column with
  | None => false
  | Some v => sql_like (c_str (lower pattern)) (c_str (lower v))
  end.

(** [SQLITE_MAX_LIKE_PATTERN_LENGTH] *)
Definition like_pattern_limit : Z := 50000.

(** The rows [search_books] selects, or the exception it stops on. *)
Definition search_rows (st : store) (title author_id : option string)
  : exn + list Book.t :=
  let query := books st in
  let query :=
    if truthy_str title
    then filter (fun b => ilike (Book.title b)
                                ("%" ++ match title with
                                        | Some t => t
                                        | None => ""
                                        end ++ "%")%string) query
    else query in
  if truthy_str author_id
  then match py_int match author_id with Some a => a | None => "" end with
       | None => inl ValueError
       | Some n =>
           if fits_int64 n
           then inr (filter (fun b => opt_Z_eqb (Book.author_id b) (Some n))
                            query)
           else inl OverflowError
       end
  else inr query.

Definition search_books (st : store) (q author_id : option string)
  : response :=
  match search_rows st q author_id with
  | inl e => Raise e
  | inr results => Jsonify (books_body results) 200
  end.

(* ===================================================================== *)
(** ** Initial data                                                       *)
(* ===================================================================== *)

(** [init_db]; [now1] and [now2] are the two readings of
    [datetime.utcnow] for the two sample books. *)
Definition init_db (st : store) (now1 now2 : Datetime.t)
  : option exn * store :=
  if (List.length (authors st) =? 0)%nat then
    match commit st
            [InsertAuthor (Some "Eric Matthes") (Some "Python Expert")
                          (Some "Chicago");
             InsertAuthor (Some "Miguel Grinberg") (Some "Flask Guru")
                          (Some "Dublin")] with
    | (inl e, st1) => (Some e, st1)
    | (inr ks, st1) =>
        let a1_id := nth 0 ks 0 in
        let a2_id := nth 1 ks 0 in
        match commit st1
                [InsertBook (Some "Python Crash Course") (Some a1_id)
                            (Some 2019) (Some "978-1593279288") (Some now1);
                 InsertBook (Some "Flask Web Development") (Some a2_id)
                            (Some 2018) (Some "978-1491991732") (Some now2)]
        with
        | (inl e, st2) => (Some e, st2)
        | (inr _, st2) => (None, st2)
        end
    end
  else (None, st).

(* ===================================================================== *)
(** ** The application as a transition system                             *)
(* ===================================================================== *)

Inductive request : Type :=
| GET_authors
| GET_author (id : Z)
| POST_authors (data : option AuthorData.t)
| PUT_author (id : Z) (data : option AuthorData.t)
| DELETE_author (id : Z)
| GET_books
| GET_book (id : Z)
| POST_books (data : option BookData.t) (now : Datetime.t)
| PUT_book (id : Z) (data : option BookData.t)
| DELETE_book (id : Z)
| GET_books_search (q author_id : option string).

(** The id of a by-id route is the first thing [get_or_404] binds. *)
Definition by_id (st : store) (id : Z) (served : response * store)
  : response * store :=
  if fits_int64 id then served else (Raise OverflowError, st).

(** A request as the application serves it.  The by-id handlers above
    describe the route for an id that [sqlite3] can bind; an id that does
    not fit 64 bits is refused here, as the bind in [get_or_404] does. *)
Definition handle (st : store) (r : request) : response * store :=
  match r with
  | GET_authors => (get_authors st, st)
  | GET_author id => by_id st id (get_author st id, st)
  | POST_authors data => create_author st data
  | PUT_author id data => by_id st id (update_author st id data)
  | DELETE_author id => by_id st id (delete_author st id)
  | GET_books => (get_books st, st)
  | GET_book id => by_id st id (get_book st id, st)
  | POST_books data now => create_book st data now
  | PUT_book id data => by_id st id (update_book st id data)
  | DELETE_book id => by_id st id (delete_book st id)
  | GET_books_search q author_id => (search_books st q author_id, st)
  end.

(** The stores the running application can be in: the one [init_db]
    leaves on first startup, and whatever requests make of it. *)
Inductive reachable : store -> Prop :=
| reach_init : forall now1 now2,
    reachable (snd (init_db empty_store now1 now2))
| reach_step : forall st r,
    reachable st -> reachable (snd (handle st r)).

(* ===================================================================== *)
(** ** Notions the properties are stated with                             *)
(* ===================================================================== *)

(** The books a cascade from author [a] leaves: those whose id is not the
    id of one of [a.books]. *)
Definition cascade_books (st : store) (a : Author.t) : list Book.t :=
  filter (fun b => negb (existsb (Z.eqb (Book.id b))
                           (map Book.id (Author_books st a)))) (books st).

(** A book is an orphan when its [author_id] names no author row. *)
Definition orphan (st : store) (b : Book.t) : bool :=
  match Book.author_id b with
  | Some k => is_null (Author_get st k)
  | None => true
  end.

Definition no_orphans (st : store) : Prop :=
  forall b, In b (books st) -> orphan st b = false.

(** The store after first startup. *)
Definition seed_store (now1 now2 : Datetime.t) : store :=
  snd (init_db empty_store now1 now2).

Definition t0 : Datetime.t := Datetime.mk 2024 1 15 10 30 0 0.

Definition demo_store : store := seed_store t0 t0.

(** The envelope [{success: false, error: <message>}] with status 404. *)
Definition not_found_envelope (r : response) : Prop :=
  exists msg, r = Jsonify (failure msg) 404.

(** The object [update_book] commits. *)
Definition patched_book (d : BookData.t) (b : Book.t) : Book.t :=
  assign (BookData.isbn d) Book.set_isbn
    (assign (BookData.year d) Book.set_year
       (assign (BookData.author_id d) Book.set_author_id
          (assign (BookData.title d) Book.set_title b))).

(** The object [update_author] commits. *)
Definition patched_author (d : AuthorData.t) (a : Author.t) : Author.t :=
  assign (AuthorData.city d) Author.set_city
    (assign (AuthorData.bio d) Author.set_bio
       (assign (AuthorData.name d) Author.set_name a)).

(** What a partial update may not touch in a book: the id, [created_at],
    and every column whose key is missing from the payload. *)
Definition book_frame (d : BookData.t) (b b' : Book.t) : Prop :=
  Book.id b' = Book.id b
  /\ Book.created_at b' = Book.created_at b
  /\ (BookData.title d = Absent -> Book.title b' = Book.title b)
  /\ (BookData.author_id d = Absent -> Book.author_id b' = Book.author_id b)
  /\ (BookData.year d = Absent -> Book.year b' = Book.year b)
  /\ (BookData.isbn d = Absent -> Book.isbn b' = Book.isbn b).

Definition author_frame (d : AuthorData.t) (a a' : Author.t) : Prop :=
  Author.id a' = Author.id a
  /\ (AuthorData.name d = Absent -> Author.name a' = Author.name a)
  /\ (AuthorData.bio d = Absent -> Author.bio a' = Author.bio a)
  /\ (AuthorData.city d = Absent -> Author.city a' = Author.city a).


Fixpoint all_chars (f : ascii -> bool) (s : string) : bool :=
  match s with
  | String c s' => f c && all_chars f s'
  | EmptyString => true
  end.







(** The string is ASCII text. *)
Definition is_ascii (s : string) : bool :=
  all_chars (fun c => (nat_of_ascii c <? 128)%nat) s.

(** The request is a book update whose payload names an author that is
    not in the store. *)
Definition dangling_update (st : store) (r : request) : bool :=
  match r with
  | PUT_book _ (Some d) =>
      match BookData.author_id d with
      | Val k => is_null (Author_get st k)
      | _ => false
      end
  | _ => false
  end.

(** What SQLite guarantees of the two tables: distinct primary keys, the
    [NOT NULL] columns filled, and no isbn held by two rows. *)
Definition wf_store (st : store) : Prop :=
  NoDup (map Author.id (authors st))
  /\ NoDup (map Book.id (books st))
  /\ (forall a, In a (authors st) -> Author.name a <> None)
  /\ (forall b, In b (books st) ->
                Book.title b <> None /\ Book.author_id b <> None)
  /\ (forall b1 b2, In b1 (books st) -> In b2 (books st) ->
                    Book.isbn b1 <> None -> Book.isbn b1 = Book.isbn b2 ->
                    Book.id b1 = Book.id b2).


(** The value a column holds after [if 'k' in data: obj.k = data['k']]. *)
Definition merged {T} (f : field T) (old : option T) : option T :=
  match f with
  | Absent => old
  | Null => None
  | Val v => Some v
  end.


(* ===================================================================== *)
(** * Properties                                                          *)
(* ===================================================================== *)

Example isoformat_ex :
  Datetime.isoformat (Datetime.mk 2024 3 9 7 5 0 0) = "2024-03-09T07:05:00"
  /\ Datetime.isoformat (Datetime.mk 2024 3 9 7 5 0 1200) =
     "2024-03-09T07:05:00.001200".
Proof. split; reflexivity. Qed.

Example py_int_ex :
  py_int "2" = Some 2 /\ py_int " -1_000 " = Some (-1000)
  /\ py_int "abc" = None /\ py_int "1__0" = None /\ py_int "0x10" = None
  /\ py_int "+ 1" = None /\ py_int "12_" = None /\ py_int " " = None
  /\ py_int (String "009" (String "2" (String "010" ""))) = Some 2
  /\ py_int (String "031" "2") = None
  /\ py_int "9223372036854775808" = Some (2 ^ 63).
Proof. repeat split; reflexivity. Qed.

Example ilike_ex :
  ilike (Some "Flask Web Development") "%flask%" = true
  /\ ilike (Some "Python Crash Course") "%flask%" = false
  /\ ilike (Some "Python Crash Course") "%_%" = true
  /\ ilike (Some "abc") "%A_C%" = true
  /\ ilike None "%%" = false
  /\ ilike (Some "Python Crash Course") ("%" ++ String "000" "zzz" ++ "%")%string
     = true.
Proof. repeat split; reflexivity. Qed.


(** ** Lookups *)

Lemma Author_get_some (st : store) (k : Z) (a : Author.t) :
  Author_get st k = Some a -> In a (authors st) /\ Author.id a = k.
Proof.
  unfold Author_get. intros H. apply find_some in H.
  destruct H as [Hin Heq]. split; [assumption | lia].
Qed.

Lemma Book_get_some (st : store) (k : Z) (b : Book.t) :
  Book_get st k = Some b -> In b (books st) /\ Book.id b = k.
Proof.
  unfold Book_get. intros H. apply find_some in H.
  destruct H as [Hin Heq]. split; [assumption | lia].
Qed.

Lemma Author_get_none (st : store) (k : Z) :
  Author_get st k = None <->
  (forall a, In a (authors st) -> Author.id a <> k).
Proof.
  unfold Author_get. split.
  - intros H a Hin Heq.
    pose proof (find_none _ _ H a Hin) as Hf. simpl in Hf. lia.
  - intros H. destruct (find _ _) eqn:Hf; [| reflexivity].
    apply find_some in Hf. destruct Hf as [Hin Heq].
    exfalso. apply (H t Hin). lia.
Qed.

Lemma Book_get_none (st : store) (k : Z) :
  Book_get st k = None <->
  (forall b, In b (books st) -> Book.id b <> k).
Proof.
  unfold Book_get. split.
  - intros H b Hin Heq.
    pose proof (find_none _ _ H b Hin) as Hf. simpl in Hf. lia.
  - intros H. destruct (find _ _) eqn:Hf; [| reflexivity].
    apply find_some in Hf. destruct Hf as [Hin Heq].
    exfalso. apply (H t Hin). lia.
Qed.

Lemma opt_Z_eqb_eq (x y : option Z) : opt_Z_eqb x y = true <-> x = y.
Proof.
  destruct x as [a|], y as [b|]; simpl; split; intros H;
    try discriminate; try reflexivity.
  - apply Z.eqb_eq in H. now subst.
  - injection H as ->. apply Z.eqb_refl.
Qed.

Lemma opt_str_eqb_eq (x y : option string) : opt_str_eqb x y = true <-> x = y.
Proof.
  destruct x as [a|], y as [b|]; simpl; split; intros H;
    try discriminate; try reflexivity.
  - apply String.eqb_eq in H. now subst.
  - injection H as ->. apply String.eqb_refl.
Qed.

(** ** Transactions *)

Lemma flush_app (qs1 qs2 : list stmt) : forall st,
  flush st (qs1 ++ qs2) =
  match flush st qs1 with
  | inl e => inl e
  | inr (st1, ks1) =>
      match flush st1 qs2 with
      | inl e => inl e
      | inr (st2, ks2) => inr (st2, ks1 ++ ks2)
      end
  end.
Proof.
  induction qs1 as [|q qs1 IH]; intros st; simpl.
  - destruct (flush st qs2) as [e|[st2 ks2]]; reflexivity.
  - destruct (exec st q) as [e|[st1 ks1]]; [reflexivity|].
    rewrite IH. destruct (flush st1 qs1) as [e|[st2 ks2]]; [reflexivity|].
    destruct (flush st2 qs2) as [e|[st3 ks3]]; [reflexivity|].
    now rewrite app_assoc.
Qed.

(** A commit that raises leaves the tables as they were. *)
Lemma commit_rollback (st st' : store) (qs : list stmt) (e : exn) :
  commit st qs = (inl e, st') -> st' = st.
Proof.
  unfold commit. destruct (flush st qs) as [e'|[st1 ks]]; intros H.
  - now injection H as _ <-.
  - discriminate.
Qed.

Lemma filter_keep_all {R} (rows : list R) : filter (fun _ => true) rows = rows.
Proof.
  induction rows as [|x rows IH]; simpl; [reflexivity | now rewrite IH].
Qed.

Lemma filter_filter {A} (f g : A -> bool) (l : list A) :
  filter f (filter g l) = filter (fun x => g x && f x) l.
Proof.
  induction l as [|x l IH]; simpl; [reflexivity|].
  destruct (g x); simpl; [destruct (f x)|]; now rewrite IH.
Qed.

(** The DELETEs of a cascade remove exactly the rows whose id is listed. *)
Lemma flush_delete_books (ids : list Z) : forall st,
  flush st (map DeleteBook ids) =
  inr (mkStore (authors st)
         (filter (fun b => negb (existsb (Z.eqb (Book.id b)) ids)) (books st)),
       []).
Proof.
  induction ids as [|k ids IH]; intros [au bk]; simpl.
  - now rewrite filter_keep_all.
  - rewrite IH. simpl. rewrite filter_filter.
    do 3 f_equal. apply filter_ext. intros b.
    now rewrite negb_orb.
Qed.

Lemma commit_delete_author (st : store) (a : Author.t) :
  commit st (session_delete_author st a) =
  (inr [],
   mkStore (filter (fun x => negb (Author.id x =? Author.id a)%Z) (authors st))
           (cascade_books st a)).
Proof.
  unfold commit, session_delete_author.
  rewrite flush_app.
  rewrite <- (map_map Book.id DeleteBook), flush_delete_books.
  reflexivity.
Qed.

(** ** Orphans *)

Lemma in_Author_books (st : store) (a : Author.t) (b : Book.t) :
  In b (Author_books st a) <->
  In b (books st) /\ Book.author_id b = Some (Author.id a).
Proof.
  unfold Author_books. rewrite filter_In, opt_Z_eqb_eq. reflexivity.
Qed.

Lemma in_cascade_books (st : store) (a : Author.t) (b : Book.t) :
  In b (cascade_books st a) <->
  In b (books st) /\
  (forall b', In b' (Author_books st a) -> Book.id b' <> Book.id b).
Proof.
  unfold cascade_books. rewrite filter_In, negb_true_iff.
  split; intros [Hin H]; split; try assumption.
  - intros b' Hb' Heq.
    assert (Hex : existsb (Z.eqb (Book.id b))
                    (map Book.id (Author_books st a)) = true).
    { apply existsb_exists. exists (Book.id b'). split.
      - now apply in_map.
      - apply Z.eqb_eq. congruence. }
    congruence.
  - destruct (existsb _ _) eqn:Hex; [| reflexivity].
    apply existsb_exists in Hex. destruct Hex as [k [Hk Heq]].
    apply in_map_iff in Hk. destruct Hk as [b' [Hid Hb']].
    apply Z.eqb_eq in Heq. exfalso. apply (H b' Hb'). congruence.
Qed.

Lemma NoDup_map_inj {A B} (f : A -> B) (l : list A) (x y : A) :
  NoDup (map f l) -> In x l -> In y l -> f x = f y -> x = y.
Proof.
  induction l as [|z l IH]; simpl; intros Hnd Hx Hy Heq; [contradiction|].
  inversion Hnd as [|? ? Hnotin Hnd']; subst.
  destruct Hx as [->|Hx], Hy as [->|Hy].
  - reflexivity.
  - exfalso. apply Hnotin. rewrite Heq. now apply in_map.
  - exfalso. apply Hnotin. rewrite <- Heq. now apply in_map.
  - now apply IH.
Qed.

Lemma find_author_after_delete (l : list Author.t) (k j : Z) :
  k <> j ->
  find (fun a => (Author.id a =? k)%Z)
       (filter (fun x => negb (Author.id x =? j)%Z) l) =
  find (fun a => (Author.id a =? k)%Z) l.
Proof.
  intros Hk. induction l as [|x l IH]; simpl; [reflexivity|].
  destruct (Author.id x =? j)%Z eqn:E1; simpl.
  - destruct (Author.id x =? k)%Z eqn:E2; [lia | exact IH].
  - destruct (Author.id x =? k)%Z; [reflexivity | exact IH].
Qed.

Lemma cascade_no_orphans (st : store) (a : Author.t) :
  no_orphans st ->
  no_orphans
    (mkStore (filter (fun x => negb (Author.id x =? Author.id a)%Z) (authors st))
             (cascade_books st a)).
Proof.
  intros Hno b Hb. simpl in Hb.
  apply in_cascade_books in Hb. destruct Hb as [Hb Hnone].
  specialize (Hno b Hb). unfold orphan in *.
  destruct (Book.author_id b) as [k|] eqn:Hk; [| discriminate].
  unfold Author_get in *. simpl.
  rewrite find_author_after_delete; [assumption|].
  intros ->. apply (Hnone b); [| reflexivity].
  apply in_Author_books. now split.
Qed.

(** X22. Deleting an author that is in the store
    succeeds, and the one commit it makes (the cascade's DELETEs and the
    author's, in one transaction) removes the author row together with
    every book whose [author_id] is the author's id: afterwards the author
    and each of those books answer 404, no remaining book carries that [author_id],
    no book appears that was not there, a store without orphans stays
    without orphans, and (primary keys being distinct) the books of the
    other authors and the other authors are all still there. *)
Theorem delete_author_cascade (st : store) (id : Z) (a : Author.t) :
  Author_get st id = Some a ->
  let st' := snd (delete_author st id) in
  fst (delete_author st id) =
    Jsonify (JDict [("success", JBool true);
                    ("message", JStr "Author and their books deleted")]) 200
  /\ st' = snd (commit st (session_delete_author st a))
  /\ get_author st' id = HTTPException 404
  /\ (forall b, In b (books st') -> Book.author_id b <> Some id)
  /\ (forall b, In b (books st) -> Book.author_id b = Some id ->
                get_book st' (Book.id b) = HTTPException 404)
  /\ (forall b, In b (books st') -> In b (books st))
  /\ (no_orphans st -> no_orphans st')
  /\ (NoDup (map Book.id (books st)) ->
      forall b, In b (books st) -> Book.author_id b <> Some id ->
                In b (books st'))
  /\ (forall x, In x (authors st) -> Author.id x <> id -> In x (authors st')).
Proof.
  intros Hget. pose proof (Author_get_some _ _ _ Hget) as [Hin Hid].
  unfold delete_author. rewrite Hget, commit_delete_author. simpl.
  set (st' := mkStore _ _).
  assert (Hgone : forall b, In b (books st') -> Book.author_id b <> Some id).
  { intros b Hb Hown. apply in_cascade_books in Hb. destruct Hb as [Hb Hno].
    apply (Hno b); [| reflexivity].
    apply in_Author_books. split; [assumption | congruence]. }
  split; [reflexivity|]. split; [reflexivity|].
  split; [|split; [exact Hgone|split; [|split; [|split; [|split]]]]].
  - unfold get_author.
    replace (Author_get st' id) with (@None Author.t); [reflexivity|].
    symmetry. apply Author_get_none. intros x Hx. unfold st' in Hx. simpl in Hx.
    apply filter_In in Hx. destruct Hx as [_ Hx].
    apply negb_true_iff, Z.eqb_neq in Hx. congruence.
  - intros b Hb Hown. unfold get_book.
    replace (Book_get st' (Book.id b)) with (@None Book.t); [reflexivity|].
    symmetry. apply Book_get_none. intros b' Hb'.
    apply in_cascade_books in Hb'. destruct Hb' as [_ Hno].
    intros Heq. apply (Hno b); [| congruence].
    apply in_Author_books. split; [assumption | congruence].
  - intros b Hb. now apply in_cascade_books in Hb.
  - intros Hno. exact (cascade_no_orphans st a Hno).
  - intros Hnd b Hb Hown. apply in_cascade_books. split; [assumption|].
    intros b' Hb' Heq. apply in_Author_books in Hb'. destruct Hb' as [Hb' Hown'].
    assert (b' = b) by (apply (NoDup_map_inj Book.id (books st)); assumption).
    subst b'. congruence.
  - intros x Hx Hne. unfold st'. simpl. apply filter_In. split; [assumption|].
    apply negb_true_iff, Z.eqb_neq. congruence.
Qed.

Lemma delete_author_cascade_witness :
  Author_get demo_store 1 =
    Some (Author.mk 1 (Some "Eric Matthes") (Some "Python Expert")
                    (Some "Chicago"))
  /\ get_author (snd (delete_author demo_store 1)) 1 = HTTPException 404
  /\ (forall b, In b (books (snd (delete_author demo_store 1))) ->
                Book.author_id b <> Some 1).
Proof.
  split; [reflexivity|].
  pose proof (delete_author_cascade demo_store 1
                (Author.mk 1 (Some "Eric Matthes") (Some "Python Expert")
                           (Some "Chicago")) eq_refl) as H.
  destruct H as (_ & _ & Hgone & Hbooks & _).
  split; [exact Hgone | exact Hbooks].
Defined.

(** C8. First startup on an empty store leaves exactly the two sample
    authors (ids 1 and 2) and the two sample books (ids 1 and 2, one per
    author); listing the books then gives count 2 with books 1 and 2, and
    after [DELETE /api/authors/1] the store holds author 2 and book 2
    only and listing the books gives count 1 with the one entry of id 2. *)
Theorem seed_scenario (now1 now2 : Datetime.t) :
  let a1 := Author.mk 1 (Some "Eric Matthes") (Some "Python Expert")
                      (Some "Chicago") in
  let a2 := Author.mk 2 (Some "Miguel Grinberg") (Some "Flask Guru")
                      (Some "Dublin") in
  let b1 := Book.mk 1 (Some "Python Crash Course") (Some 2019)
                    (Some "978-1593279288") (Some now1) (Some 1) in
  let b2 := Book.mk 2 (Some "Flask Web Development") (Some 2018)
                    (Some "978-1491991732") (Some now2) (Some 2) in
  let j1 := JDict [("id", JInt 1); ("title", JStr "Python Crash Course");
                   ("author_id", JInt 1); ("year", JInt 2019);
                   ("isbn", JStr "978-1593279288");
                   ("created_at", JStr (Datetime.isoformat now1))] in
  let j2 := JDict [("id", JInt 2); ("title", JStr "Flask Web Development");
                   ("author_id", JInt 2); ("year", JInt 2018);
                   ("isbn", JStr "978-1491991732");
                   ("created_at", JStr (Datetime.isoformat now2))] in
  let st := seed_store now1 now2 in
  init_db empty_store now1 now2 = (None, mkStore [a1; a2] [b1; b2])
  /\ get_books st =
       Jsonify (JDict [("success", JBool true); ("count", JInt 2);
                       ("books", JList [j1; j2])]) 200
  /\ fst (delete_author st 1) =
       Jsonify (JDict [("success", JBool true);
                       ("message", JStr "Author and their books deleted")])
               200
  /\ snd (delete_author st 1) = mkStore [a2] [b2]
  /\ get_books (snd (delete_author st 1)) =
       Jsonify (JDict [("success", JBool true); ("count", JInt 1);
                       ("books", JList [j2])]) 200.
Proof.
  cbv zeta. repeat split.
Qed.

(** C2 (the code departs from it). On the seeded store,
    [PUT /api/books/1] with [{"author_id": 99}] is answered 200 although
    there is no author 99, and the store it leaves, which is reachable,
    holds book 1 with [author_id] 99: an orphan. *)
Theorem update_book_dangling_author (now1 now2 : Datetime.t) :
  let st := seed_store now1 now2 in
  let data := Some (BookData.mk Absent (Val 99) Absent Absent) in
  let b' := Book.mk 1 (Some "Python Crash Course") (Some 2019)
                    (Some "978-1593279288") (Some now1) (Some 99) in
  Author_get st 99 = None
  /\ fst (update_book st 1 data) =
       Jsonify (JDict [("success", JBool true); ("book", Book.to_dict b')]) 200
  /\ Book_get (snd (update_book st 1 data)) 1 = Some b'
  /\ orphan (snd (update_book st 1 data)) b' = true
  /\ reachable (snd (update_book st 1 data)).
Proof.
  cbv zeta. repeat split.
  apply (reach_step (seed_store now1 now2)
           (PUT_book 1 (Some (BookData.mk Absent (Val 99) Absent Absent)))).
  apply reach_init.
Qed.

(** C1 (the code departs from it). On the store the seeded one becomes
    by [PUT /api/books/1] with [{"author_id": 99}], author 2 is stored and
    [DELETE /api/authors/2] is answered 200; it removes author 2 and book
    2, the only book with [author_id] 2, in its one commit.  Yet the store
    it leaves, which is reachable, still holds book 1 with [author_id] 99
    and no author 99: an orphaned book exists after the delete, and it is
    fetched by its id. *)
Theorem orphan_outlives_author_delete (now1 now2 : Datetime.t) :
  let a1 := Author.mk 1 (Some "Eric Matthes") (Some "Python Expert")
                      (Some "Chicago") in
  let a2 := Author.mk 2 (Some "Miguel Grinberg") (Some "Flask Guru")
                      (Some "Dublin") in
  let b' := Book.mk 1 (Some "Python Crash Course") (Some 2019)
                    (Some "978-1593279288") (Some now1) (Some 99) in
  let b2 := Book.mk 2 (Some "Flask Web Development") (Some 2018)
                    (Some "978-1491991732") (Some now2) (Some 2) in
  let st1 :=
    snd (handle (seed_store now1 now2)
           (PUT_book 1 (Some (BookData.mk Absent (Val 99) Absent Absent)))) in
  st1 = mkStore [a1; a2] [b'; b2]
  /\ handle st1 (DELETE_author 2) =
       (Jsonify (JDict [("success", JBool true);
                        ("message", JStr "Author and their books deleted")])
                200,
        mkStore [a1] [b'])
  /\ Author_get (mkStore [a1] [b']) 99 = None
  /\ orphan (mkStore [a1] [b']) b' = true
  /\ get_book (mkStore [a1] [b']) 1 =
       Jsonify (JDict [("success", JBool true); ("book", Book.to_dict b')]) 200
  /\ reachable (mkStore [a1] [b']).
Proof.
  cbv zeta. repeat split.
  change (reachable
            (snd (handle
                    (snd (handle (seed_store now1 now2)
                            (PUT_book 1
                               (Some (BookData.mk Absent (Val 99) Absent
                                                  Absent)))))
                    (DELETE_author 2)))).
  apply reach_step, reach_step, reach_init.
Qed.

(** ** Missing ids *)

(** C3, as stated, fails: [GET /api/authors/99] on the seeded store is
    answered by the 404 that [get_or_404] raises, whose body is not the
    [jsonify] envelope. *)
Lemma missing_author_not_enveloped :
  Author_get demo_store 99 = None
  /\ ~ not_found_envelope (get_author demo_store 99).
Proof.
  split; [reflexivity|].
  intros [msg H]. discriminate H.
Qed.

(** C3, amended. A get, update or delete of an author or book id that is
    not in the store and fits SQLite's 64-bit integer ends in the 404
    raised by [get_or_404] (status 404, werkzeug's own error body, no
    envelope), whatever the request body, and leaves the store as it was.
    An id that does not fit ends in the [OverflowError] of the bind, also
    with the store as it was. *)
Theorem missing_id_aborts_404 (st : store) (id : Z) :
  (fits_int64 id = true ->
   (Author_get st id = None ->
    handle st (GET_author id) = (HTTPException 404, st)
    /\ (forall data,
          handle st (PUT_author id data) = (HTTPException 404, st))
    /\ handle st (DELETE_author id) = (HTTPException 404, st))
   /\
   (Book_get st id = None ->
    handle st (GET_book id) = (HTTPException 404, st)
    /\ (forall data, handle st (PUT_book id data) = (HTTPException 404, st))
    /\ handle st (DELETE_book id) = (HTTPException 404, st)))
  /\
  (fits_int64 id = false ->
   handle st (GET_author id) = (Raise OverflowError, st)
   /\ (forall data,
         handle st (PUT_author id data) = (Raise OverflowError, st))
   /\ handle st (DELETE_author id) = (Raise OverflowError, st)
   /\ handle st (GET_book id) = (Raise OverflowError, st)
   /\ (forall data, handle st (PUT_book id data) = (Raise OverflowError, st))
   /\ handle st (DELETE_book id) = (Raise OverflowError, st)).
Proof.
  split; intros Hfit.
  - split; intros H; simpl; unfold by_id; rewrite Hfit.
    + unfold get_author, update_author, delete_author. rewrite H. auto.
    + unfold get_book, update_book, delete_book. rewrite H. auto.
  - simpl. unfold by_id. rewrite Hfit. repeat split.
Qed.

Lemma missing_id_aborts_404_witness :
  fits_int64 99 = true
  /\ Author_get demo_store 99 = None /\ Book_get demo_store 99 = None
  /\ status_code (fst (handle demo_store (GET_author 99))) = 404
  /\ status_code (fst (handle demo_store (DELETE_book 99))) = 404
  /\ fits_int64 (2 ^ 63) = false
  /\ status_code (fst (handle demo_store (GET_author (2 ^ 63)))) = 500.
Proof.
  split; [reflexivity|]. split; [reflexivity|]. split; [reflexivity|].
  destruct (missing_id_aborts_404 demo_store 99) as [[Ha Hb] _];
    [reflexivity|].
  destruct (Ha eq_refl) as [Hget _]. destruct (Hb eq_refl) as [_ [_ Hdel]].
  rewrite Hget, Hdel. split; [reflexivity|]. split; [reflexivity|].
  split; [reflexivity|].
  destruct (missing_id_aborts_404 demo_store (2 ^ 63)) as [_ Ho].
  destruct (Ho eq_refl) as [Hget' _]. now rewrite Hget'.
Defined.

(** ** Creating books *)

(** C4, as stated, fails: a create request that names the missing author
    99 but carries no title is refused by the presence check, with 400
    and not with the NotFound answer. *)
Lemma create_book_unknown_author_no_title :
  let data := Some (BookData.mk Absent (Val 99) Absent Absent) in
  Author_get demo_store 99 = None
  /\ create_book demo_store data t0 =
       (Jsonify (failure "Title and author_id are required") 400, demo_store)
  /\ ~ not_found_envelope (fst (create_book demo_store data t0)).
Proof.
  cbv zeta. split; [reflexivity|]. split; [reflexivity|].
  intros [msg H]. discriminate H.
Qed.

(** C4, amended. A create request with a non-empty title and a non-zero
    [author_id] that fits SQLite's 64-bit integer and names no author is
    answered with the 404 envelope "Author not found", and the store (so
    the set of books) is unchanged. *)
Theorem create_book_unknown_author
        (st : store) (d : BookData.t) (now : Datetime.t) (k : Z) :
  truthy_str (dict_get (BookData.title d)) = true ->
  BookData.author_id d = Val k ->
  k <> 0 ->
  fits_int64 k = true ->
  Author_get st k = None ->
  create_book st (Some d) now = (Jsonify (failure "Author not found") 404, st).
Proof.
  intros Ht Ha Hk Hfit Hnone. unfold create_book.
  assert (He : BookData.is_empty d = false).
  { unfold BookData.is_empty. rewrite Ha. simpl.
    now rewrite orb_true_r. }
  rewrite He, Ht, Ha. simpl.
  destruct (Z.eqb_spec k 0) as [->|_]; [contradiction|]. simpl.
  now rewrite Hfit, Hnone.
Qed.

Lemma create_book_unknown_author_witness :
  create_book demo_store
    (Some (BookData.mk (Val "Fluent Python") (Val 99) Absent Absent)) t0 =
  (Jsonify (failure "Author not found") 404, demo_store).
Proof.
  apply (create_book_unknown_author demo_store
           (BookData.mk (Val "Fluent Python") (Val 99) Absent Absent) t0 99).
  - reflexivity.
  - reflexivity.
  - lia.
  - reflexivity.
  - reflexivity.
Defined.





(** ** Updates with no body *)

(** C9. An update of an author or a book that exists, sent with a body
    that decodes to [None], raises [TypeError] at the first membership
    test: no [jsonify] envelope is returned (the outcome is an unhandled
    exception) and nothing is written. *)
Theorem update_with_null_body_raises (st : store) (id : Z) :
  (Author_get st id <> None ->
   update_author st id None = (Raise TypeError, st))
  /\ (Book_get st id <> None ->
      update_book st id None = (Raise TypeError, st)).
Proof.
  split; intros H.
  - unfold update_author. destruct (Author_get st id); [reflexivity | contradiction].
  - unfold update_book. destruct (Book_get st id); [reflexivity | contradiction].
Qed.

Lemma update_with_null_body_raises_witness :
  Author_get demo_store 1 <> None /\ Book_get demo_store 1 <> None
  /\ update_author demo_store 1 None = (Raise TypeError, demo_store)
  /\ update_book demo_store 1 None = (Raise TypeError, demo_store).
Proof.
  assert (Ha : Author_get demo_store 1 <> None) by discriminate.
  assert (Hb : Book_get demo_store 1 <> None) by discriminate.
  split; [exact Ha|]. split; [exact Hb|].
  destruct (update_with_null_body_raises demo_store 1) as [H1 H2].
  split; [exact (H1 Ha) | exact (H2 Hb)].
Defined.

(** ** Partial updates *)

Lemma find_replace_book_same (l : list Book.t) (b b' : Book.t) (k : Z) :
  Book.id b' = k ->
  find (fun x => (Book.id x =? k)%Z) l = Some b ->
  find (fun x => (Book.id x =? k)%Z) (replace_book b' l) = Some b'.
Proof.
  intros Hid. induction l as [|x l IH]; simpl; [discriminate|].
  destruct (Z.eqb_spec (Book.id x) (Book.id b')) as [E|E].
  - intros _. now rewrite Hid, Z.eqb_refl.
  - destruct (Z.eqb_spec (Book.id x) k) as [E'|E']; [congruence | exact IH].
Qed.

Lemma find_replace_book_other (l : list Book.t) (b' : Book.t) (k : Z) :
  k <> Book.id b' ->
  find (fun x => (Book.id x =? k)%Z) (replace_book b' l) =
  find (fun x => (Book.id x =? k)%Z) l.
Proof.
  intros Hk. induction l as [|x l IH]; simpl; [reflexivity|].
  destruct (Z.eqb_spec (Book.id x) (Book.id b')) as [E|E].
  - destruct (Z.eqb_spec (Book.id b') k); [congruence|].
    destruct (Z.eqb_spec (Book.id x) k); [congruence | exact IH].
  - destruct (Z.eqb_spec (Book.id x) k); [reflexivity | exact IH].
Qed.

Lemma find_replace_author_same (l : list Author.t) (a a' : Author.t) (k : Z) :
  Author.id a' = k ->
  find (fun x => (Author.id x =? k)%Z) l = Some a ->
  find (fun x => (Author.id x =? k)%Z) (replace_author a' l) = Some a'.
Proof.
  intros Hid. induction l as [|x l IH]; simpl; [discriminate|].
  destruct (Z.eqb_spec (Author.id x) (Author.id a')) as [E|E].
  - intros _. now rewrite Hid, Z.eqb_refl.
  - destruct (Z.eqb_spec (Author.id x) k) as [E'|E']; [congruence | exact IH].
Qed.

Lemma find_replace_author_other (l : list Author.t) (a' : Author.t) (k : Z) :
  k <> Author.id a' ->
  find (fun x => (Author.id x =? k)%Z) (replace_author a' l) =
  find (fun x => (Author.id x =? k)%Z) l.
Proof.
  intros Hk. induction l as [|x l IH]; simpl; [reflexivity|].
  destruct (Z.eqb_spec (Author.id x) (Author.id a')) as [E|E].
  - destruct (Z.eqb_spec (Author.id a') k); [congruence|].
    destruct (Z.eqb_spec (Author.id x) k); [congruence | exact IH].
  - destruct (Z.eqb_spec (Author.id x) k); [reflexivity | exact IH].
Qed.

Lemma update_book_outcome (st : store) (id : Z) (b : Book.t) (d : BookData.t) :
  Book_get st id = Some b ->
  (exists e, update_book st id (Some d) = (Raise e, st))
  \/ update_book st id (Some d) =
       (Jsonify (JDict [("success", JBool true);
                        ("book", Book.to_dict (patched_book d b))]) 200,
        mkStore (authors st) (replace_book (patched_book d b) (books st))).
Proof.
  intros Hget. unfold update_book. rewrite Hget. cbv zeta.
  fold (patched_book d b). unfold commit, flush, exec.
  destruct (negb _); [left; now eexists|].
  destruct (is_null _ || is_null _); [left; now eexists|].
  destruct (isbn_taken _ _ _); [left; now eexists | now right].
Qed.

Lemma update_author_outcome (st : store) (id : Z) (a : Author.t)
      (d : AuthorData.t) :
  Author_get st id = Some a ->
  update_author st id (Some d) = (Raise IntegrityError, st)
  \/ update_author st id (Some d) =
       (Jsonify (JDict [("success", JBool true);
                        ("author",
                         Author_to_dict
                           (mkStore (replace_author (patched_author d a)
                                                    (authors st)) (books st))
                           (patched_author d a))]) 200,
        mkStore (replace_author (patched_author d a) (authors st)) (books st)).
Proof.
  intros Hget. unfold update_author. rewrite Hget. cbv zeta.
  fold (patched_author d a). unfold commit, flush, exec.
  destruct (is_null _); [now left | now right].
Qed.

Lemma patched_book_frame (d : BookData.t) (b : Book.t) :
  Book.id (patched_book d b) = Book.id b
  /\ Book.created_at (patched_book d b) = Book.created_at b
  /\ (BookData.title d = Absent ->
      Book.title (patched_book d b) = Book.title b)
  /\ (BookData.author_id d = Absent ->
      Book.author_id (patched_book d b) = Book.author_id b)
  /\ (BookData.year d = Absent -> Book.year (patched_book d b) = Book.year b)
  /\ (BookData.isbn d = Absent -> Book.isbn (patched_book d b) = Book.isbn b).
Proof.
  unfold patched_book, assign.
  destruct d as [[| |t] [| |k] [| |y] [| |i]]; simpl;
    repeat split; intros; try discriminate; reflexivity.
Qed.

Lemma patched_author_frame (d : AuthorData.t) (a : Author.t) :
  Author.id (patched_author d a) = Author.id a
  /\ (AuthorData.name d = Absent ->
      Author.name (patched_author d a) = Author.name a)
  /\ (AuthorData.bio d = Absent ->
      Author.bio (patched_author d a) = Author.bio a)
  /\ (AuthorData.city d = Absent ->
      Author.city (patched_author d a) = Author.city a).
Proof.
  unfold patched_author, assign.
  destruct d as [[| |n] [| |b] [| |c]]; simpl;
    repeat split; intros; try discriminate; reflexivity.
Qed.

Lemma book_frame_refl (d : BookData.t) (b : Book.t) : book_frame d b b.
Proof. unfold book_frame. repeat split; reflexivity. Qed.

Lemma author_frame_refl (d : AuthorData.t) (a : Author.t) : author_frame d a a.
Proof. unfold author_frame. repeat split; reflexivity. Qed.

(** C5. Updating an author or a book that exists, with any JSON object,
    leaves the row in the store with every column whose key is not in the
    payload at its stored value (as are the id and [created_at]); the rows
    with other ids and the other table are untouched.  In particular the
    payload [{"year": 2023}] leaves a book's title, isbn and author_id as
    they were. *)
Theorem update_changes_only_supplied_fields :
  (forall st id a d,
      Author_get st id = Some a ->
      let st' := snd (update_author st id (Some d)) in
      (exists a', Author_get st' id = Some a' /\ author_frame d a a')
      /\ (forall k, k <> id -> Author_get st' k = Author_get st k)
      /\ books st' = books st)
  /\
  (forall st id b d,
      Book_get st id = Some b ->
      let st' := snd (update_book st id (Some d)) in
      (exists b', Book_get st' id = Some b' /\ book_frame d b b')
      /\ (forall k, k <> id -> Book_get st' k = Book_get st k)
      /\ authors st' = authors st)
  /\
  (forall st id b,
      Book_get st id = Some b ->
      let d := BookData.mk Absent Absent (Val 2023) Absent in
      exists b',
        Book_get (snd (update_book st id (Some d))) id = Some b'
        /\ Book.title b' = Book.title b
        /\ Book.isbn b' = Book.isbn b
        /\ Book.author_id b' = Book.author_id b).
Proof.
  assert (HB : forall st id b d,
      Book_get st id = Some b ->
      let st' := snd (update_book st id (Some d)) in
      (exists b', Book_get st' id = Some b' /\ book_frame d b b')
      /\ (forall k, k <> id -> Book_get st' k = Book_get st k)
      /\ authors st' = authors st).
  { intros st id b d Hget st'. subst st'.
    pose proof (Book_get_some _ _ _ Hget) as [_ Hid].
    pose proof (patched_book_frame d b) as Hfr.
    destruct (update_book_outcome st id b d Hget) as [[e ->] | ->]; simpl.
    - split; [| split; [intros; reflexivity | reflexivity]].
      exists b. split; [assumption | apply book_frame_refl].
    - split; [| split; [| reflexivity]].
      + exists (patched_book d b). split; [| exact Hfr].
        unfold Book_get. simpl. apply find_replace_book_same with (b := b).
        * destruct Hfr as [-> _]. assumption.
        * exact Hget.
      + intros k Hk. unfold Book_get. simpl.
        apply find_replace_book_other.
        destruct Hfr as [-> _]. congruence. }
  split; [| split; [exact HB|]].
  - intros st id a d Hget st'. subst st'.
    pose proof (Author_get_some _ _ _ Hget) as [_ Hid].
    pose proof (patched_author_frame d a) as Hfr.
    destruct (update_author_outcome st id a d Hget) as [-> | ->]; simpl.
    + split; [| split; [intros; reflexivity | reflexivity]].
      exists a. split; [assumption | apply author_frame_refl].
    + split; [| split; [| reflexivity]].
      * exists (patched_author d a). split; [| exact Hfr].
        unfold Author_get. simpl. apply find_replace_author_same with (a := a).
        -- destruct Hfr as [-> _]. assumption.
        -- exact Hget.
      * intros k Hk. unfold Author_get. simpl.
        apply find_replace_author_other.
        destruct Hfr as [-> _]. congruence.
  - intros st id b Hget d.
    destruct (HB st id b d Hget) as [[b' [Hb' Hfr]] _].
    exists b'. split; [exact Hb'|].
    destruct Hfr as (_ & _ & Ht & Ha & _ & Hi).
    split; [apply Ht; reflexivity|].
    split; [apply Hi; reflexivity | apply Ha; reflexivity].
Qed.

Lemma update_changes_only_supplied_fields_witness :
  let d := BookData.mk Absent Absent (Val 2023) Absent in
  Book_get demo_store 1 =
    Some (Book.mk 1 (Some "Python Crash Course") (Some 2019)
                  (Some "978-1593279288") (Some t0) (Some 1))
  /\ exists b',
       Book_get (snd (update_book demo_store 1 (Some d))) 1 = Some b'
       /\ Book.title b' = Some "Python Crash Course"
       /\ Book.isbn b' = Some "978-1593279288"
       /\ Book.author_id b' = Some 1.
Proof.
  cbv zeta. split; [reflexivity|].
  exact (proj2 (proj2 update_changes_only_supplied_fields) demo_store 1
           (Book.mk 1 (Some "Python Crash Course") (Some 2019)
                    (Some "978-1593279288") (Some t0) (Some 1)) eq_refl).
Defined.

Example update_year_only :
  update_book demo_store 1 (Some (BookData.mk Absent Absent (Val 2023) Absent))
  = (Jsonify
       (JDict [("success", JBool true);
               ("book",
                Book.to_dict
                  (Book.mk 1 (Some "Python Crash Course") (Some 2023)
                           (Some "978-1593279288") (Some t0) (Some 1)))]) 200,
     mkStore (authors demo_store)
             [Book.mk 1 (Some "Python Crash Course") (Some 2023)
                      (Some "978-1593279288") (Some t0) (Some 1);
              Book.mk 2 (Some "Flask Web Development") (Some 2018)
                      (Some "978-1491991732") (Some t0) (Some 2)]).
Proof. reflexivity. Qed.

(** ** Searching *)







Lemma py_int_literal (s : string) (n : Z) :
  py_int s = Some n <->
  int_literal s = Some n /\ (count_digits s <= max_str_digits)%nat.
Proof.
  unfold py_int. destruct (int_literal s) as [m|].
  - destruct (Nat.leb_spec (count_digits s) max_str_digits) as [Hle|Hgt];
      split.
    + intros [= <-]. now split.
    + now intros [Hm _].
    + discriminate.
    + intros [_ Hle]. exfalso. apply (Nat.lt_irrefl (count_digits s)).
      now apply Nat.le_lt_trans with max_str_digits.
  - split; [discriminate | now intros [Hm _]].
Qed.


Lemma truthy_str_nonempty (s : string) :
  truthy_str (Some s) = true <-> s <> "".
Proof.
  simpl. destruct (String.eqb_spec s ""); simpl; split; intros H;
    congruence.
Qed.



Section Strings.

Local Open Scope string_scope.








Lemma lower_app (a b : string) : lower (a ++ b) = lower a ++ lower b.
Proof. induction a as [|c a IH]; simpl; [reflexivity | now rewrite IH]. Qed.



















End Strings.




Example search_flask_2 :
  search_rows demo_store (Some "FLASK") (Some "2") =
    inr [Book.mk 2 (Some "Flask Web Development") (Some 2018)
                 (Some "978-1491991732") (Some t0) (Some 2)]
  /\ search_rows demo_store (Some "flask") (Some "1") = inr []
  /\ search_rows demo_store (Some "") (Some "") = inr (books demo_store)
  /\ search_rows demo_store None (Some "9223372036854775808") =
     inl OverflowError
  /\ search_rows demo_store None (Some "-9223372036854775808") = inr [].
Proof. repeat split; reflexivity. Qed.

(** ** The store invariant *)

Lemma fold_max_ge (l : list Z) : forall i x,
  x = i \/ In x l -> x <= fold_left Z.max l i.
Proof.
  induction l as [|y l IH]; intros i x; simpl.
  - intros [->|[]]. lia.
  - intros [->|[->|Hin]].
    + transitivity (Z.max i y); [lia | apply IH; now left].
    + transitivity (Z.max i x); [lia | apply IH; now left].
    + apply IH. now right.
Qed.

Lemma next_id_fresh (ids : list Z) : ~ In (next_id ids) ids.
Proof.
  destruct ids as [|i rest]; [intros []|].
  intros Hin. unfold next_id in Hin.
  assert (H : fold_left Z.max rest i + 1 <= fold_left Z.max rest i).
  { apply fold_max_ge. destruct Hin as [<-|Hin]; [now left | now right]. }
  lia.
Qed.

Lemma NoDup_snoc_fresh (ids : list Z) :
  NoDup ids -> NoDup (ids ++ [next_id ids]).
Proof.
  intros H. apply NoDup_app; [assumption | repeat constructor; intros [] |].
  intros a Ha [<-|[]]. now apply (next_id_fresh ids).
Qed.

Lemma NoDup_keys_filter {R} (key : R -> Z) (keep : R -> bool) (rows : list R) :
  NoDup (map key rows) -> NoDup (map key (filter keep rows)).
Proof.
  induction rows as [|x rows IH]; simpl; intros H; [constructor|].
  inversion H as [|? ? Hnotin Hnd]; subst.
  destruct (keep x); simpl; [| now apply IH].
  constructor; [| now apply IH].
  intros Hin. apply Hnotin. apply in_map_iff in Hin.
  destruct Hin as (y & Hy & Hin). apply filter_In in Hin.
  rewrite <- Hy. apply in_map. tauto.
Qed.

Lemma map_id_replace_book (b' : Book.t) (l : list Book.t) :
  map Book.id (replace_book b' l) = map Book.id l.
Proof.
  unfold replace_book. rewrite map_map. apply map_ext. intros x.
  destruct (Z.eqb_spec (Book.id x) (Book.id b')); congruence.
Qed.

Lemma map_id_replace_author (a' : Author.t) (l : list Author.t) :
  map Author.id (replace_author a' l) = map Author.id l.
Proof.
  unfold replace_author. rewrite map_map. apply map_ext. intros x.
  destruct (Z.eqb_spec (Author.id x) (Author.id a')); congruence.
Qed.

Lemma in_replace_book (b' y : Book.t) (l : list Book.t) :
  In y (replace_book b' l) ->
  y = b' \/ (In y l /\ Book.id y <> Book.id b').
Proof.
  unfold replace_book. intros H. apply in_map_iff in H.
  destruct H as (x & Hx & Hin).
  destruct (Z.eqb_spec (Book.id x) (Book.id b')); subst; auto.
Qed.

Lemma in_replace_author (a' y : Author.t) (l : list Author.t) :
  In y (replace_author a' l) -> y = a' \/ In y l.
Proof.
  unfold replace_author. intros H. apply in_map_iff in H.
  destruct H as (x & Hx & Hin).
  destruct (Author.id x =? Author.id a')%Z; subst; auto.
Qed.

Lemma isbn_free (bs : list Book.t) (self : option Z) (v : option string)
      (b : Book.t) :
  isbn_taken bs self v = false -> In b bs -> Some (Book.id b) <> self ->
  v <> None -> Book.isbn b <> v.
Proof.
  intros Hfree Hin Hself Hv Heq. destruct v as [s|]; [| contradiction].
  unfold isbn_taken in Hfree.
  assert (Ht : existsb
                 (fun b => negb (opt_Z_eqb (Some (Book.id b)) self)
                           && opt_str_eqb (Book.isbn b) (Some s)) bs = true).
  { apply existsb_exists. exists b. split; [assumption|].
    apply andb_true_iff. split.
    - apply negb_true_iff. destruct (opt_Z_eqb _ _) eqn:E; [| reflexivity].
      apply opt_Z_eqb_eq in E. contradiction.
    - now apply opt_str_eqb_eq. }
  congruence.
Qed.

Lemma is_null_false {T} (v : option T) : is_null v = false <-> v <> None.
Proof. destruct v; simpl; split; congruence. Qed.

(** Every statement that goes through keeps the invariant. *)
Lemma exec_wf (st st' : store) (q : stmt) (ks : list Z) :
  wf_store st -> exec st q = inr (st', ks) -> wf_store st'.
Proof.
  intros (Hau & Hbk & Hname & Hcols & Hisbn) Hexec.
  destruct q as [name bio city | title aid year isbn cat | a | b | k | k];
    simpl in Hexec.
  - (* INSERT INTO author *)
    destruct (is_null name) eqn:Hn; [discriminate|].
    injection Hexec as <- _. apply is_null_false in Hn.
    unfold wf_store; simpl. split; [|split; [|split; [|split]]]; trivial.
    + rewrite map_app. simpl. now apply NoDup_snoc_fresh.
    + intros a Ha. apply in_app_iff in Ha.
      destruct Ha as [Ha|[<-|[]]]; [now apply Hname | exact Hn].
  - (* INSERT INTO book *)
    destruct (negb (binds aid && binds year)); [discriminate|].
    destruct (is_null title || is_null aid) eqn:Hn; [discriminate|].
    destruct (isbn_taken (books st) None isbn) eqn:Hfree; [discriminate|].
    injection Hexec as <- _.
    apply orb_false_iff in Hn. destruct Hn as [Ht Ha].
    apply is_null_false in Ht, Ha.
    assert (Hnew : forall b, In b (books st) -> isbn <> None ->
                             Book.isbn b <> isbn).
    { intros b Hb Hv. apply (isbn_free _ _ _ _ Hfree Hb); [discriminate|].
      assumption. }
    unfold wf_store; simpl. split; [|split; [|split; [|split]]]; trivial.
    + rewrite map_app. simpl. now apply NoDup_snoc_fresh.
    + intros b Hb. apply in_app_iff in Hb.
      destruct Hb as [Hb|[<-|[]]]; [now apply Hcols | now split].
    + intros b1 b2 H1 H2 Hv Heq. apply in_app_iff in H1, H2.
      destruct H1 as [H1|[<-|[]]], H2 as [H2|[<-|[]]]; simpl in *.
      * now apply Hisbn.
      * exfalso. apply (Hnew b1 H1); congruence.
      * exfalso. apply (Hnew b2 H2); congruence.
      * reflexivity.
  - (* UPDATE author *)
    destruct (is_null (Author.name a)) eqn:Hn; [discriminate|].
    injection Hexec as <- _. apply is_null_false in Hn.
    unfold wf_store; simpl. split; [|split; [|split; [|split]]]; trivial.
    + now rewrite map_id_replace_author.
    + intros x Hx. apply in_replace_author in Hx.
      destruct Hx as [->|Hx]; [exact Hn | now apply Hname].
  - (* UPDATE book *)
    destruct (negb (binds (Book.author_id b) && binds (Book.year b)));
      [discriminate|].
    destruct (is_null (Book.title b) || is_null (Book.author_id b)) eqn:Hn;
      [discriminate|].
    destruct (isbn_taken (books st) (Some (Book.id b)) (Book.isbn b)) eqn:Hfree;
      [discriminate|].
    injection Hexec as <- _.
    apply orb_false_iff in Hn. destruct Hn as [Ht Ha].
    apply is_null_false in Ht, Ha.
    assert (Hother : forall x, In x (books st) -> Book.id x <> Book.id b ->
                               Book.isbn b <> None ->
                               Book.isbn x <> Book.isbn b).
    { intros x Hx Hid Hv.
      apply (isbn_free _ _ _ _ Hfree Hx); [congruence | assumption]. }
    unfold wf_store; simpl. split; [|split; [|split; [|split]]]; trivial.
    + now rewrite map_id_replace_book.
    + intros x Hx. apply in_replace_book in Hx.
      destruct Hx as [->|[Hx _]]; [now split | now apply Hcols].
    + intros b1 b2 H1 H2 Hv Heq.
      apply in_replace_book in H1, H2.
      destruct H1 as [->|[H1 N1]], H2 as [->|[H2 N2]].
      * reflexivity.
      * exfalso. apply (Hother b2 H2 N2); congruence.
      * exfalso. apply (Hother b1 H1 N1); congruence.
      * now apply Hisbn.
  - (* DELETE FROM author *)
    injection Hexec as <- _.
    unfold wf_store; simpl. split; [|split; [|split; [|split]]]; trivial.
    + now apply NoDup_keys_filter.
    + intros a Ha. apply filter_In in Ha. now apply Hname.
  - (* DELETE FROM book *)
    injection Hexec as <- _.
    unfold wf_store; simpl. split; [|split; [|split; [|split]]]; trivial.
    + now apply NoDup_keys_filter.
    + intros b Hb. apply filter_In in Hb. now apply Hcols.
    + intros b1 b2 H1 H2. apply filter_In in H1, H2. now apply Hisbn.
Qed.

Lemma flush_wf (qs : list stmt) : forall st st' ks,
  wf_store st -> flush st qs = inr (st', ks) -> wf_store st'.
Proof.
  induction qs as [|q qs IH]; intros st st' ks Hwf; simpl.
  - now intros [= <- _].
  - destruct (exec st q) as [e|[st1 ks1]] eqn:He; [discriminate|].
    destruct (flush st1 qs) as [e|[st2 ks2]] eqn:Hf; [discriminate|].
    intros [= <- _]. apply (IH st1 st2 ks2); [| assumption].
    now apply (exec_wf st st1 q ks1).
Qed.

Lemma commit_wf (st : store) (qs : list stmt) :
  wf_store st -> wf_store (snd (commit st qs)).
Proof.
  intros Hwf. unfold commit.
  destruct (flush st qs) as [e|[st' ks]] eqn:Hf; simpl; [assumption|].
  now apply (flush_wf qs st st' ks).
Qed.

(** A handler leaves the store alone or leaves what one commit made. *)
Lemma handle_commits (st : store) (r : request) :
  snd (handle st r) = st \/ exists qs, snd (handle st r) = snd (commit st qs).
Proof.
  destruct r as [ | id | data | id data | id | | id | data now | id data | id
                  | q a ]; simpl; unfold by_id;
    try destruct (fits_int64 id); simpl; auto.
  - unfold create_author. destruct data as [d|]; auto.
    destruct (_ || _); auto.
    right. eexists. destruct (commit st _) as [[e|ks] st'] eqn:E;
      rewrite E; reflexivity.
  - unfold update_author. destruct (Author_get st id); auto.
    destruct data as [d|]; auto.
    right. eexists. destruct (commit st _) as [[e|ks] st'] eqn:E;
      rewrite E; reflexivity.
  - unfold delete_author. destruct (Author_get st id); auto.
    right. eexists. destruct (commit st _) as [[e|ks] st'] eqn:E;
      rewrite E; reflexivity.
  - unfold create_book. destruct data as [d|]; auto.
    destruct (_ || _ || _); auto.
    destruct (negb (binds _)); auto.
    destruct (match dict_item _ with Some _ => _ | None => _ end); auto.
    right. eexists. destruct (commit st _) as [[e|ks] st'] eqn:E;
      rewrite E; reflexivity.
  - unfold update_book. destruct (Book_get st id); auto.
    destruct data as [d|]; auto.
    right. eexists. destruct (commit st _) as [[e|ks] st'] eqn:E;
      rewrite E; reflexivity.
  - unfold delete_book. destruct (Book_get st id); auto.
    right. eexists. destruct (commit st _) as [[e|ks] st'] eqn:E;
      rewrite E; reflexivity.
Qed.

Lemma handle_wf (st : store) (r : request) :
  wf_store st -> wf_store (snd (handle st r)).
Proof.
  intros Hwf. destruct (handle_commits st r) as [-> | [qs ->]];
    [assumption | now apply commit_wf].
Qed.

Lemma empty_store_wf : wf_store empty_store.
Proof.
  unfold wf_store, empty_store; simpl.
  repeat split; try constructor; intros; contradiction.
Qed.

Lemma init_db_wf (st : store) (now1 now2 : Datetime.t) :
  wf_store st -> wf_store (snd (init_db st now1 now2)).
Proof.
  intros Hwf. unfold init_db.
  destruct (List.length (authors st) =? 0)%nat; [| assumption].
  pose proof (commit_wf st
                [InsertAuthor (Some "Eric Matthes") (Some "Python Expert")
                              (Some "Chicago");
                 InsertAuthor (Some "Miguel Grinberg") (Some "Flask Guru")
                              (Some "Dublin")] Hwf) as H1.
  destruct (commit st _) as [[e|ks] st1]; simpl in *; [assumption|].
  match goal with
  | |- context [commit st1 ?qs] => pose proof (commit_wf st1 qs H1) as H2
  end.
  destruct (commit st1 _) as [[e|ks'] st2]; simpl in *; assumption.
Qed.

(** X20. Every store the application can reach (first startup on an empty
    store, then any requests) has distinct author ids and distinct book
    ids, a name for every author, a title and an author_id for every
    book, and no isbn held by two books. *)
Theorem reachable_wf (st : store) : reachable st -> wf_store st.
Proof.
  induction 1 as [now1 now2 | st r Hreach IH].
  - apply init_db_wf, empty_store_wf.
  - now apply handle_wf.
Qed.


(** A commit takes effect as a whole or not at all. *)
Lemma commit_all_or_nothing (st : store) (qs : list stmt) :
  (exists e, commit st qs = (inl e, st))
  \/ (exists ks st', flush st qs = inr (st', ks)
                     /\ commit st qs = (inr ks, st')).
Proof.
  unfold commit. destruct (flush st qs) as [e|[st' ks]].
  - left. now exists e.
  - right. now exists ks, st'.
Qed.

(** ** Where orphans come from *)

Lemma find_app_some {R} (f : R -> bool) (l l' : list R) (x : R) :
  find f l = Some x -> find f (l ++ l') = Some x.
Proof.
  induction l as [|y l IH]; simpl; [discriminate|].
  destruct (f y); [trivial | exact IH].
Qed.

Lemma orphan_mono (st st' : store) (b : Book.t) :
  (forall k, Author_get st k <> None -> Author_get st' k <> None) ->
  orphan st b = false -> orphan st' b = false.
Proof.
  intros Hmono. unfold orphan. destruct (Book.author_id b) as [k|]; [| trivial].
  intros H. apply is_null_false in H. apply is_null_false. now apply Hmono.
Qed.

Lemma no_orphans_step (st st' : store) :
  no_orphans st ->
  (forall k, Author_get st k <> None -> Author_get st' k <> None) ->
  (forall b, In b (books st') -> In b (books st) \/ orphan st' b = false) ->
  no_orphans st'.
Proof.
  intros Hno Hmono Hbooks b Hb.
  destruct (Hbooks b Hb) as [Hold | Hok]; [| exact Hok].
  apply (orphan_mono st st' b Hmono). now apply Hno.
Qed.

Lemma replace_author_keeps_ids (st : store) (a' : Author.t) (k : Z) :
  Author_get st k <> None ->
  Author_get (mkStore (replace_author a' (authors st)) (books st)) k <> None.
Proof.
  unfold Author_get. simpl. intros H.
  destruct (Z.eq_dec k (Author.id a')) as [E|E].
  - destruct (find _ (authors st)) as [a0|] eqn:Hf; [| contradiction].
    rewrite (find_replace_author_same _ a0 a' k); [discriminate | congruence |].
    exact Hf.
  - now rewrite find_replace_author_other.
Qed.

Lemma patched_book_author (d : BookData.t) (b : Book.t) :
  Book.author_id (patched_book d b) =
  if contains_key (BookData.author_id d)
  then dict_item (BookData.author_id d)
  else Book.author_id b.
Proof.
  unfold patched_book, assign.
  destruct d as [[| |t] [| |k] [| |y] [| |i]]; reflexivity.
Qed.

Lemma seed_no_orphans (now1 now2 : Datetime.t) :
  no_orphans (seed_store now1 now2).
Proof. intros b [<-|[<-|[]]]; reflexivity. Qed.

(** X21. Every request other than a book update that names a missing
    author takes a store without orphans to a store without orphans: an
    orphan can come from that one path only. *)
Theorem handle_no_orphans (st : store) (r : request) :
  no_orphans st -> dangling_update st r = false ->
  no_orphans (snd (handle st r)).
Proof.
  intros Hno Hok.
  destruct r as [ | id | data | id data | id | | id | data now | id data | id
                  | q a ]; simpl; unfold by_id;
    try destruct (fits_int64 id); simpl; trivial.
  - (* POST /api/authors *)
    unfold create_author. destruct data as [d|]; trivial.
    destruct (_ || _); trivial.
    unfold commit, flush, exec. destruct (is_null _); trivial. simpl.
    apply (no_orphans_step st); trivial; simpl; auto.
    intros k H. unfold Author_get in *. simpl.
    destruct (find _ (authors st)) as [x|] eqn:Hf; [| contradiction].
    now rewrite (find_app_some _ _ _ _ Hf).
  - (* PUT /api/authors/<id> *)
    destruct (Author_get st id) as [x|] eqn:Hget;
      [| unfold update_author; now rewrite Hget].
    destruct data as [d|]; [| unfold update_author; now rewrite Hget].
    destruct (update_author_outcome st id x d Hget) as [-> | ->]; trivial.
    simpl. apply (no_orphans_step st); trivial; simpl; auto.
    intros k. apply replace_author_keeps_ids.
  - (* DELETE /api/authors/<id> *)
    unfold delete_author. destruct (Author_get st id) as [x|]; trivial.
    rewrite commit_delete_author. simpl. now apply cascade_no_orphans.
  - (* POST /api/books *)
    unfold create_book. destruct data as [d|]; trivial.
    destruct (_ || _ || _); trivial.
    destruct (negb (binds _)); trivial.
    destruct (dict_item (BookData.author_id d)) as [k|] eqn:Hk; trivial.
    destruct (Author_get st k) as [x|] eqn:Hx; trivial.
    unfold commit, flush, exec. destruct (negb (_ && _)); trivial.
    destruct (_ || _); trivial.
    destruct (isbn_taken _ _ _); trivial. simpl.
    apply (no_orphans_step st); trivial; simpl; auto.
    intros b Hb. apply in_app_iff in Hb. destruct Hb as [Hb|[<-|[]]]; auto.
    right. unfold orphan. simpl. unfold Author_get in *. simpl. now rewrite Hx.
  - (* PUT /api/books/<id> *)
    destruct (Book_get st id) as [x|] eqn:Hget;
      [| unfold update_book; now rewrite Hget].
    destruct data as [d|]; [| unfold update_book; now rewrite Hget].
    pose proof (Book_get_some _ _ _ Hget) as [Hin _].
    unfold update_book. rewrite Hget. cbv zeta. fold (patched_book d x).
    unfold commit, flush, exec.
    destruct (negb (_ && _)); trivial.
    destruct (is_null _ || is_null (Book.author_id _)) eqn:Hnull; trivial.
    destruct (isbn_taken _ _ _); trivial. simpl.
    apply (no_orphans_step st); trivial; simpl; auto.
    intros b Hb. apply in_replace_book in Hb. destruct Hb as [-> | [Hb _]]; auto.
    right. unfold orphan. rewrite patched_book_author.
    simpl in Hok. destruct (BookData.author_id d) as [| | k] eqn:Hk; simpl.
    + exact (Hno x Hin).
    + apply orb_false_iff in Hnull. destruct Hnull as [_ Hnull].
      rewrite patched_book_author, Hk in Hnull. discriminate.
    + exact Hok.
  - (* DELETE /api/books/<id> *)
    unfold delete_book. destruct (Book_get st id) as [x|]; trivial.
    simpl. apply (no_orphans_step st); trivial; simpl; auto.
    intros b Hb. apply filter_In in Hb. tauto.
Qed.

(* ===================================================================== *)
(** * Further properties of the handlers                                  *)
(* ===================================================================== *)

(** ** Creating authors *)


Lemma Author_get_fresh (st : store) :
  Author_get st (next_id (map Author.id (authors st))) = None.
Proof.
  apply Author_get_none. intros a Ha Heq.
  apply (next_id_fresh (map Author.id (authors st))).
  rewrite <- Heq. now apply in_map.
Qed.







(** ** Creating books *)





(** ** Deleting books *)

Lemma find_book_after_delete (l : list Book.t) (k j : Z) :
  k <> j ->
  find (fun b => (Book.id b =? k)%Z)
       (filter (fun x => negb (Book.id x =? j)%Z) l) =
  find (fun b => (Book.id b =? k)%Z) l.
Proof.
  intros Hk. induction l as [|x l IH]; simpl; [reflexivity|].
  destruct (Z.eqb_spec (Book.id x) j) as [E1|E1]; simpl.
  - destruct (Z.eqb_spec (Book.id x) k); [congruence | exact IH].
  - destruct (Book.id x =? k)%Z; [reflexivity | exact IH].
Qed.

(** X5. Deleting a book that is in the store answers 200 "Book deleted";
    afterwards that id answers 404 to a get and to a second delete, every
    other book id answers as before, and the authors are untouched. *)
Theorem delete_book_removes (st : store) (id : Z) (b : Book.t) :
  Book_get st id = Some b ->
  let st' := snd (delete_book st id) in
  fst (delete_book st id) =
    Jsonify (JDict [("success", JBool true);
                    ("message", JStr "Book deleted")]) 200
  /\ get_book st' id = HTTPException 404
  /\ delete_book st' id = (HTTPException 404, st')
  /\ (forall k, k <> id -> Book_get st' k = Book_get st k)
  /\ authors st' = authors st.
Proof.
  intros Hget. pose proof (Book_get_some _ _ _ Hget) as [_ Hid].
  unfold delete_book at 1 2 3. rewrite Hget. simpl. rewrite Hid.
  set (st' := mkStore _ _).
  assert (Hgone : Book_get st' id = None).
  { apply Book_get_none. intros x Hx. unfold st' in Hx. simpl in Hx.
    apply filter_In in Hx. destruct Hx as [_ Hx].
    now apply negb_true_iff, Z.eqb_neq in Hx. }
  split; [reflexivity|]. split; [| split; [| split; [| reflexivity]]].
  - unfold get_book. now rewrite Hgone.
  - unfold delete_book. now rewrite Hgone.
  - intros k Hk. unfold Book_get, st'. simpl.
    now apply find_book_after_delete.
Qed.

Lemma delete_book_removes_witness :
  get_book (snd (delete_book demo_store 2)) 2 = HTTPException 404
  /\ Book_get (snd (delete_book demo_store 2)) 1 = Book_get demo_store 1.
Proof.
  pose proof (delete_book_removes demo_store 2
                (Book.mk 2 (Some "Flask Web Development") (Some 2018)
                         (Some "978-1491991732") (Some t0) (Some 2))
                eq_refl) as (_ & Hget & _ & Hother & _).
  split; [exact Hget | apply Hother; lia].
Defined.

(** ** What an update writes *)

Lemma patched_book_merged (d : BookData.t) (b : Book.t) :
  patched_book d b =
  Book.mk (Book.id b)
          (merged (BookData.title d) (Book.title b))
          (merged (BookData.year d) (Book.year b))
          (merged (BookData.isbn d) (Book.isbn b))
          (Book.created_at b)
          (merged (BookData.author_id d) (Book.author_id b)).
Proof.
  unfold patched_book, assign. destruct b.
  destruct d as [[| |t] [| |k] [| |y] [| |i]]; reflexivity.
Qed.

Lemma patched_author_merged (d : AuthorData.t) (a : Author.t) :
  patched_author d a =
  Author.mk (Author.id a)
            (merged (AuthorData.name d) (Author.name a))
            (merged (AuthorData.bio d) (Author.bio a))
            (merged (AuthorData.city d) (Author.city a)).
Proof.
  unfold patched_author, assign. destruct a.
  destruct d as [[| |n] [| |b] [| |c]]; reflexivity.
Qed.

Lemma update_book_cases (st : store) (id : Z) (b : Book.t) (d : BookData.t) :
  Book_get st id = Some b ->
  update_book st id (Some d) =
  if negb (binds (Book.author_id (patched_book d b))
           && binds (Book.year (patched_book d b)))
  then (Raise OverflowError, st)
  else
  if is_null (Book.title (patched_book d b))
     || is_null (Book.author_id (patched_book d b))
     || isbn_taken (books st) (Some id) (Book.isbn (patched_book d b))
  then (Raise IntegrityError, st)
  else (Jsonify (JDict [("success", JBool true);
                        ("book", Book.to_dict (patched_book d b))]) 200,
        mkStore (authors st) (replace_book (patched_book d b) (books st))).
Proof.
  intros Hget. pose proof (Book_get_some _ _ _ Hget) as [_ Hid].
  unfold update_book. rewrite Hget. cbv zeta. fold (patched_book d b).
  unfold commit, flush, exec.
  replace (Book.id (patched_book d b)) with id
    by (now rewrite patched_book_merged).
  destruct (negb (_ && _)); [reflexivity|].
  destruct (is_null _ || is_null _); [reflexivity|]. simpl orb.
  destruct (isbn_taken _ _ _); reflexivity.
Qed.

Lemma update_author_cases (st : store) (id : Z) (a : Author.t)
      (d : AuthorData.t) :
  Author_get st id = Some a ->
  update_author st id (Some d) =
  if is_null (Author.name (patched_author d a))
  then (Raise IntegrityError, st)
  else
    let st' := mkStore (replace_author (patched_author d a) (authors st))
                       (books st) in
    (Jsonify (JDict [("success", JBool true);
                     ("author", Author_to_dict st' (patched_author d a))]) 200,
     st').
Proof.
  intros Hget. unfold update_author. rewrite Hget. cbv zeta.
  fold (patched_author d a). unfold commit, flush, exec.
  destruct (is_null _); reflexivity.
Qed.





(** ** Repeating and reassigning *)

Lemma patched_book_idem (d : BookData.t) (b : Book.t) :
  patched_book d (patched_book d b) = patched_book d b.
Proof.
  rewrite !patched_book_merged. simpl.
  destruct d as [[| |t] [| |k] [| |y] [| |i]]; reflexivity.
Qed.

Lemma patched_author_idem (d : AuthorData.t) (a : Author.t) :
  patched_author d (patched_author d a) = patched_author d a.
Proof.
  rewrite !patched_author_merged. simpl.
  destruct d as [[| |n] [| |b] [| |c]]; reflexivity.
Qed.

Lemma replace_book_idem (p : Book.t) (l : list Book.t) :
  replace_book p (replace_book p l) = replace_book p l.
Proof.
  unfold replace_book. rewrite map_map. apply map_ext. intros x.
  destruct (Z.eqb_spec (Book.id x) (Book.id p)) as [E|E].
  - now rewrite Z.eqb_refl.
  - destruct (Z.eqb_spec (Book.id x) (Book.id p)); [contradiction | reflexivity].
Qed.

Lemma replace_author_idem (p : Author.t) (l : list Author.t) :
  replace_author p (replace_author p l) = replace_author p l.
Proof.
  unfold replace_author. rewrite map_map. apply map_ext. intros x.
  destruct (Z.eqb_spec (Author.id x) (Author.id p)) as [E|E].
  - now rewrite Z.eqb_refl.
  - destruct (Z.eqb_spec (Author.id x) (Author.id p));
      [contradiction | reflexivity].
Qed.

(** The uniqueness check of a row against the table does not look at the
    rows that carry the row's own id. *)
Lemma isbn_taken_replace_self (p : Book.t) (l : list Book.t) :
  isbn_taken (replace_book p l) (Some (Book.id p)) (Book.isbn p) =
  isbn_taken l (Some (Book.id p)) (Book.isbn p).
Proof.
  unfold isbn_taken, replace_book.
  destruct (Book.isbn p) as [s|]; [| reflexivity].
  induction l as [|x l IH]; [reflexivity|].
  cbn [map existsb]. rewrite IH. f_equal.
  destruct (Z.eqb_spec (Book.id x) (Book.id p)) as [E|E].
  - simpl. now rewrite E, Z.eqb_refl.
  - reflexivity.
Qed.

(** X8. Updates are idempotent: sending the same payload to the same
    author or book a second time gives the same answer as the first time
    and leaves the store the first update left. *)
Theorem update_twice (st : store) (id : Z) :
  (forall a d, Author_get st id = Some a ->
     update_author (snd (update_author st id (Some d))) id (Some d) =
     update_author st id (Some d))
  /\ (forall b d, Book_get st id = Some b ->
        update_book (snd (update_book st id (Some d))) id (Some d) =
        update_book st id (Some d)).
Proof.
  split.
  - intros a d Hget. pose proof (Author_get_some _ _ _ Hget) as [_ Hid].
    rewrite (update_author_cases st id a d Hget).
    destruct (is_null (Author.name (patched_author d a))) eqn:Hn; cbv zeta.
    + simpl snd. rewrite (update_author_cases st id a d Hget). now rewrite Hn.
    + simpl snd.
      assert (Hid' : Author.id (patched_author d a) = id)
        by (now rewrite patched_author_merged).
      assert (Hget' : Author_get
                        (mkStore (replace_author (patched_author d a)
                                                 (authors st)) (books st)) id
                      = Some (patched_author d a)).
      { unfold Author_get. simpl.
        now apply find_replace_author_same with (a := a). }
      rewrite (update_author_cases _ id _ d Hget').
      rewrite patched_author_idem, Hn. cbv zeta. simpl.
      now rewrite replace_author_idem.
  - intros b d Hget. pose proof (Book_get_some _ _ _ Hget) as [_ Hid].
    rewrite (update_book_cases st id b d Hget).
    destruct (negb (_ && _)) eqn:Hr;
      [simpl snd; rewrite (update_book_cases st id b d Hget);
       now rewrite Hr |].
    destruct (_ || _ || _) eqn:Hv.
    + simpl snd. rewrite (update_book_cases st id b d Hget).
      now rewrite Hr, Hv.
    + simpl snd.
      assert (Hid' : Book.id (patched_book d b) = id)
        by (now rewrite patched_book_merged).
      assert (Hget' : Book_get
                        (mkStore (authors st)
                                 (replace_book (patched_book d b) (books st)))
                        id
                      = Some (patched_book d b)).
      { unfold Book_get. simpl.
        now apply find_replace_book_same with (b := b). }
      rewrite (update_book_cases _ id _ d Hget').
      rewrite patched_book_idem, Hr. simpl books. simpl authors.
      rewrite <- Hid' at 1. rewrite isbn_taken_replace_self, Hid', Hv.
      now rewrite replace_book_idem.
Qed.

Lemma update_twice_witness :
  let d := BookData.mk (Val "PCC") (Val 2) Absent Null in
  update_book (snd (update_book demo_store 1 (Some d))) 1 (Some d) =
  update_book demo_store 1 (Some d).
Proof.
  cbv zeta.
  exact (proj2 (update_twice demo_store 1)
           (Book.mk 1 (Some "Python Crash Course") (Some 2019)
                    (Some "978-1593279288") (Some t0) (Some 1))
           (BookData.mk (Val "PCC") (Val 2) Absent Null) eq_refl).
Defined.

Lemma in_replace_book_other (p x : Book.t) (l : list Book.t) :
  Book.id x <> Book.id p -> (In x (replace_book p l) <-> In x l).
Proof.
  intros Hne. split.
  - intros H. apply in_replace_book in H. destruct H as [-> | [H _]];
      [contradiction | assumption].
  - intros H. unfold replace_book. apply in_map_iff. exists x.
    destruct (Z.eqb_spec (Book.id x) (Book.id p)); [contradiction | auto].
Qed.

(** X9. An update that is answered 200 and whose payload carries
    [author_id: k] moves the book: afterwards every row under the book's
    id has author_id [k], the book is among the [books] of an author with
    id [k] and among those of no other author, and the membership of all
    other books in every author's [books] is as before. *)
Theorem update_book_reassigns (st : store) (id k : Z) (b : Book.t)
        (d : BookData.t) :
  Book_get st id = Some b ->
  BookData.author_id d = Val k ->
  status_code (fst (update_book st id (Some d))) = 200 ->
  let st' := snd (update_book st id (Some d)) in
  (forall x, In x (books st') -> Book.id x = id -> Book.author_id x = Some k)
  /\ (forall a, Author.id a = k ->
        exists p, In p (Author_books st' a) /\ Book.id p = id)
  /\ (forall a x, Author.id a <> k -> In x (Author_books st' a) ->
                  Book.id x <> id)
  /\ (forall a x, Book.id x <> id ->
        (In x (Author_books st' a) <-> In x (Author_books st a))).
Proof.
  intros Hget Hk Hok. pose proof (Book_get_some _ _ _ Hget) as [Hin Hid].
  revert Hok. rewrite (update_book_cases st id b d Hget).
  destruct (negb (_ && _)); [simpl; lia|].
  destruct (_ || _ || _); [simpl; lia|]. intros _. cbv zeta. simpl snd.
  set (p := patched_book d b).
  assert (Hpid : Book.id p = id) by (unfold p; now rewrite patched_book_merged).
  assert (Hpk : Book.author_id p = Some k).
  { unfold p. rewrite patched_book_merged. simpl. now rewrite Hk. }
  assert (Hrows : forall x, In x (replace_book p (books st)) ->
                            Book.id x = id -> x = p).
  { intros x Hx Hxid. apply in_replace_book in Hx.
    destruct Hx as [-> | [_ Hne]]; [reflexivity | congruence]. }
  split; [| split; [| split]].
  - simpl. intros x Hx Hxid. now rewrite (Hrows x Hx Hxid).
  - intros a Ha. exists p. split; [| exact Hpid].
    apply in_Author_books. simpl. split; [| congruence].
    unfold replace_book. apply in_map_iff. exists b.
    destruct (Z.eqb_spec (Book.id b) (Book.id p)); [auto | congruence].
  - intros a x Ha Hx Hxid. apply in_Author_books in Hx. simpl in Hx.
    destruct Hx as [Hx Hown]. rewrite (Hrows x Hx Hxid) in Hown. congruence.
  - intros a x Hx. rewrite !in_Author_books. simpl.
    rewrite in_replace_book_other by congruence. reflexivity.
Qed.

Lemma update_book_reassigns_witness :
  let d := BookData.mk Absent (Val 2) Absent Absent in
  let st' := snd (update_book demo_store 1 (Some d)) in
  let a2 := Author.mk 2 (Some "Miguel Grinberg") (Some "Flask Guru")
                      (Some "Dublin") in
  exists p, In p (Author_books st' a2) /\ Book.id p = 1.
Proof.
  cbv zeta.
  assert (Hok : status_code
                  (fst (update_book demo_store 1
                          (Some (BookData.mk Absent (Val 2) Absent Absent))))
                = 200) by reflexivity.
  exact (proj1 (proj2 (update_book_reassigns demo_store 1 2
                  (Book.mk 1 (Some "Python Crash Course") (Some 2019)
                           (Some "978-1593279288") (Some t0) (Some 1))
                  (BookData.mk Absent (Val 2) Absent Absent)
                  eq_refl eq_refl Hok))
           (Author.mk 2 (Some "Miguel Grinberg") (Some "Flask Guru")
                      (Some "Dublin")) eq_refl).
Defined.

(** ** More on searching *)

(** X10. For any title filter whose pattern is within SQLite's length
    limit, wildcards and NUL included, and any ASCII [author_id] filter
    that [int()] reads as a number of the signed 64-bit range, the books a
    search with both filters returns are the books the title filter alone
    returns that the author filter alone also returns, in the order the
    title-only search lists them. *)
Theorem search_filters_intersect
        (st : store) (q : option string) (a : string) (n : Z) :
  (forall t, q = Some t ->
     (Z.of_nat (String.length t) + 2 <= like_pattern_limit)%Z) ->
  a <> "" -> is_ascii a = true -> py_int a = Some n -> fits_int64 n = true ->
  exists l l1 l2,
    search_books st q (Some a) = Jsonify (books_body l) 200
    /\ search_books st q None = Jsonify (books_body l1) 200
    /\ search_books st None (Some a) = Jsonify (books_body l2) 200
    /\ l = filter (fun b => opt_Z_eqb (Book.author_id b) (Some n)) l1
    /\ (forall b, In b l <-> In b l1 /\ In b l2).
Proof.
  intros _ Hne _ Hn Hfit. apply truthy_str_nonempty in Hne.
  unfold search_books, search_rows. rewrite Hne, Hn, Hfit.
  change (truthy_str None) with false. cbv iota.
  set (rows := if truthy_str q then filter _ (books st) else books st).
  assert (Hsub : forall b, In b rows -> In b (books st)).
  { intros b Hb. subst rows. destruct (truthy_str q); [| assumption].
    now apply filter_In in Hb. }
  do 3 eexists. repeat (split; [reflexivity|]).
  intros b. rewrite !filter_In. split.
  - intros [Hb Ha]. auto.
  - intros [Hb [_ Ha]]. auto.
Qed.

Lemma search_filters_intersect_witness :
  exists l l1 l2,
    search_books demo_store (Some "%o_") (Some " 2 ") =
      Jsonify (books_body l) 200
    /\ search_books demo_store (Some "%o_") None = Jsonify (books_body l1) 200
    /\ search_books demo_store None (Some " 2 ") = Jsonify (books_body l2) 200
    /\ l = filter (fun b => opt_Z_eqb (Book.author_id b) (Some 2)) l1
    /\ (forall b, In b l <-> In b l1 /\ In b l2).
Proof.
  apply (search_filters_intersect demo_store (Some "%o_") " 2 " 2).
  - intros t [= <-]. vm_compute. discriminate.
  - discriminate.
  - reflexivity.
  - reflexivity.
  - reflexivity.
Defined.

Lemma int_digits_step (c : ascii) (k acc : Z) (s : string) :
  digit_of c = Some k ->
  int_digits acc (String c s) = int_digits (acc * 10 + k) s.
Proof. intros H. simpl. now rewrite H. Qed.

Lemma space_not_digit (c : ascii) :
  is_space c = true -> digit_of c = None /\ (c =? "_")%char = false.
Proof.
  destruct c as [[] [] [] [] [] [] [] []]; intros H;
    try discriminate H; split; reflexivity.
Qed.

Lemma int_digits_spaces (ws : string) (acc : Z) :
  all_space ws = true -> int_digits acc ws = Some acc.
Proof.
  destruct ws as [|c r]; [reflexivity|]. intros H.
  pose proof H as H'. simpl in H'. apply andb_true_iff in H'.
  destruct (space_not_digit c (proj1 H')) as [Hd Hu].
  cbn [int_digits]. now rewrite Hd, Hu, H.
Qed.

Lemma int_digits_uint (d : Decimal.uint) (ws : string) :
  all_space ws = true ->
  forall acc : nat,
    int_digits (Z.of_nat acc) (NilEmpty.string_of_uint d ++ ws)%string =
    Some (Z.of_nat (Nat.of_uint_acc d acc)).
Proof.
  intros Hws.
  induction d; intros acc;
    cbn [NilEmpty.string_of_uint Nat.of_uint_acc append];
    [now apply int_digits_spaces| ..];
    (erewrite int_digits_step by reflexivity);
    rewrite <- IHd; f_equal;
    rewrite Nat.tail_mul_spec;
    match goal with
    | |- context [Z.of_nat (nat_of_ascii ?c - 48)] =>
        let v := eval vm_compute in (Z.of_nat (nat_of_ascii c - 48)) in
        change (Z.of_nat (nat_of_ascii c - 48)) with v
    end; lia.
Qed.

Lemma to_uint_nonnil (n : nat) : Nat.to_uint n <> Decimal.Nil.
Proof.
  rewrite <- (Unsigned.of_to n) at 1. rewrite Unsigned.to_of.
  apply unorm_nonnil.
Qed.

Lemma int_literal_lstrip (ws s : string) :
  all_space ws = true -> int_literal (ws ++ s)%string = int_literal s.
Proof.
  induction ws as [|c ws IH]; [reflexivity|]. simpl. intros H.
  apply andb_true_iff in H. destruct H as [Hc Hws].
  unfold int_literal in *. cbn [lstrip]. rewrite Hc. now apply IH.
Qed.

(** The base-ten literal of the decimal rendering of [n], blanks around
    it or not, is [n]. *)
Lemma int_literal_digits (n : nat) (ws1 ws2 : string) :
  all_space ws1 = true -> all_space ws2 = true ->
  int_literal (ws1 ++ Datetime.digits n ++ ws2)%string = Some (Z.of_nat n).
Proof.
  intros H1 H2. rewrite (int_literal_lstrip _ _ H1).
  unfold Datetime.digits.
  rewrite <- (Unsigned.of_to n) at 2.
  pose proof (to_uint_nonnil n) as Hnil.
  unfold Nat.of_uint.
  destruct (Nat.to_uint n) as [|d|d|d|d|d|d|d|d|d|d]; [contradiction| ..];
    unfold int_literal; cbn [NilEmpty.string_of_uint lstrip append];
    match goal with
    | |- context [is_space ?c] => change (is_space c) with false
    end; cbv iota;
    match goal with
    | |- context [digit_of ?c] =>
        let v := eval vm_compute in (digit_of c) in
        change (digit_of c) with v
    end; cbv iota beta;
    cbn [Nat.of_uint_acc];
    match goal with
    | |- option_map _ (int_digits ?k _) = Some (Z.of_nat (Nat.of_uint_acc _ ?m)) =>
        change k with (Z.of_nat m)
    end;
    rewrite (int_digits_uint _ _ H2); cbn [option_map]; f_equal;
    apply Z.mul_1_l.
Qed.

Lemma count_digits_app (s1 s2 : string) :
  count_digits (s1 ++ s2)%string = (count_digits s1 + count_digits s2)%nat.
Proof.
  induction s1 as [|c s1 IH]; [reflexivity|].
  cbn [append count_digits]. rewrite IH. apply Nat.add_assoc.
Qed.

Lemma count_digits_blank (ws : string) :
  all_space ws = true -> count_digits ws = 0%nat.
Proof.
  induction ws as [|c ws IH]; [reflexivity|]. simpl. intros H.
  apply andb_true_iff in H. destruct H as [Hc Hws].
  destruct (space_not_digit c Hc) as [-> _]. simpl. now apply IH.
Qed.

(** A run of decimal digits read after [acc] is at least [acc] shifted by
    the length of the run. *)
Lemma of_uint_acc_lower (d : Decimal.uint) :
  forall acc : nat,
    Z.of_nat acc * 10 ^ Z.of_nat (count_digits (NilEmpty.string_of_uint d))
    <= Z.of_nat (Nat.of_uint_acc d acc).
Proof.
  induction d; intros acc;
    cbn [NilEmpty.string_of_uint Nat.of_uint_acc];
    [simpl; lia | ..];
    (eapply Z.le_trans; [| apply IHd]);
    rewrite Nat.tail_mul_spec;
    match goal with
    | |- context [count_digits (String ?c ?r)] =>
        change (count_digits (String c r)) with (S (count_digits r))
    end;
    rewrite Nat2Z.inj_succ, Z.pow_succ_r by lia;
    match goal with
    | |- context [10 ^ ?e] =>
        assert (0 < 10 ^ e) by (apply Z.pow_pos_nonneg; lia);
        generalize dependent (10 ^ e)
    end; intros; nia.
Qed.

Lemma unorm_leading_zero (d r : Decimal.uint) :
  Decimal.unorm d = Decimal.D0 r -> r = Decimal.Nil.
Proof.
  induction d; simpl; intros H; try discriminate; auto.
  now injection H as <-.
Qed.

(** A number below [2 ^ 63] is written with at most 19 digits. *)
Lemma count_digits_int64 (n : nat) :
  Z.of_nat n < 2 ^ 63 -> (count_digits (Datetime.digits n) <= 19)%nat.
Proof.
  intros Hn. unfold Datetime.digits.
  pose proof (Unsigned.of_to n) as Hof.
  pose proof (Unsigned.to_of (Nat.to_uint n)) as Hnorm.
  rewrite Hof in Hnorm. unfold Nat.of_uint in Hof.
  assert (Hbig : forall (k : nat) (r : Decimal.uint),
            (1 <= k)%nat ->
            Nat.of_uint_acc r k = n ->
            (count_digits (NilEmpty.string_of_uint r) <= 18)%nat).
  { intros k r Hk Hr.
    pose proof (of_uint_acc_lower r k) as Hlow. rewrite Hr in Hlow.
    destruct (Nat.le_gt_cases (count_digits (NilEmpty.string_of_uint r)) 18)
      as [Hle|Hgt]; [exact Hle | exfalso].
    assert (Hpow : 10 ^ 19 <=
                   10 ^ Z.of_nat (count_digits (NilEmpty.string_of_uint r)))
      by (apply Z.pow_le_mono_r; lia).
    assert (H19 : 2 ^ 63 < 10 ^ 19) by reflexivity.
    nia. }
  destruct (Nat.to_uint n) as [|d|d|d|d|d|d|d|d|d|d];
    cbn [NilEmpty.string_of_uint];
    match goal with
    | |- (count_digits EmptyString <= _)%nat => simpl; lia
    | |- context [count_digits (String ?c ?r)] =>
        change (count_digits (String c r)) with (S (count_digits r))
    end.
  - symmetry in Hnorm. apply unorm_leading_zero in Hnorm. subst d.
    simpl. lia.
  - cbn [Nat.of_uint_acc] in Hof. apply Hbig in Hof; [lia | simpl; lia].
  - cbn [Nat.of_uint_acc] in Hof. apply Hbig in Hof; [lia | simpl; lia].
  - cbn [Nat.of_uint_acc] in Hof. apply Hbig in Hof; [lia | simpl; lia].
  - cbn [Nat.of_uint_acc] in Hof. apply Hbig in Hof; [lia | simpl; lia].
  - cbn [Nat.of_uint_acc] in Hof. apply Hbig in Hof; [lia | simpl; lia].
  - cbn [Nat.of_uint_acc] in Hof. apply Hbig in Hof; [lia | simpl; lia].
  - cbn [Nat.of_uint_acc] in Hof. apply Hbig in Hof; [lia | simpl; lia].
  - cbn [Nat.of_uint_acc] in Hof. apply Hbig in Hof; [lia | simpl; lia].
  - cbn [Nat.of_uint_acc] in Hof. apply Hbig in Hof; [lia | simpl; lia].
Qed.

Lemma digits_nonempty (n : nat) (ws1 ws2 : string) :
  (ws1 ++ Datetime.digits n ++ ws2)%string <> "".
Proof.
  unfold Datetime.digits. pose proof (to_uint_nonnil n) as Hnil.
  destruct ws1; [| discriminate].
  destruct (Nat.to_uint n); [contradiction| ..]; discriminate.
Qed.

(** X11. For every natural number [n] below [2 ^ 63], a search whose
    [author_id] parameter is the decimal rendering of [n], with or without
    blanks (TAB, LF, VT, FF, CR, space) around it, succeeds and returns
    exactly the stored books whose author_id is [n], in store order.  For
    a larger [n] the search raises: [OverflowError] when the driver binds
    the number, or [ValueError] when [int()] refuses the digit count. *)
Theorem search_by_author_number (st : store) (n : nat) (ws1 ws2 : string) :
  all_space ws1 = true -> all_space ws2 = true ->
  (Z.of_nat n < 2 ^ 63 ->
   search_books st None (Some (ws1 ++ Datetime.digits n ++ ws2)%string) =
     Jsonify (books_body
                (filter (fun b => opt_Z_eqb (Book.author_id b)
                                            (Some (Z.of_nat n)))
                        (books st))) 200)
  /\ (2 ^ 63 <= Z.of_nat n ->
      search_books st None (Some (ws1 ++ Datetime.digits n ++ ws2)%string) =
        Raise OverflowError
      \/ search_books st None (Some (ws1 ++ Datetime.digits n ++ ws2)%string) =
           Raise ValueError).
Proof.
  intros H1 H2. unfold search_books, search_rows.
  change (truthy_str None) with false. cbv iota.
  pose proof (digits_nonempty n ws1 ws2) as Hne.
  apply truthy_str_nonempty in Hne. rewrite Hne.
  pose proof (int_literal_digits n ws1 ws2 H1 H2) as Hlit.
  split; intros Hn.
  - assert (Hint : py_int (ws1 ++ Datetime.digits n ++ ws2)%string =
                   Some (Z.of_nat n)).
    { apply py_int_literal. split; [exact Hlit|].
      rewrite !count_digits_app, (count_digits_blank _ H1),
        (count_digits_blank _ H2).
      pose proof (count_digits_int64 n Hn). unfold max_str_digits. lia. }
    rewrite Hint.
    assert (Hfit : fits_int64 (Z.of_nat n) = true).
    { unfold fits_int64. apply andb_true_iff. split.
      - apply Z.leb_le. lia.
      - now apply Z.ltb_lt. }
    now rewrite Hfit.
  - unfold py_int. rewrite Hlit.
    destruct (_ <=? _)%nat; [| now right].
    assert (Hfit : fits_int64 (Z.of_nat n) = false).
    { unfold fits_int64. apply andb_false_iff. right. now apply Z.ltb_ge. }
    rewrite Hfit. now left.
Qed.

Lemma search_by_author_number_witness :
  search_books demo_store None (Some " 2 ") =
    Jsonify (books_body
               [Book.mk 2 (Some "Flask Web Development") (Some 2018)
                        (Some "978-1491991732") (Some t0) (Some 2)]) 200.
Proof.
  apply (proj1 (search_by_author_number demo_store 2 " " " " eq_refl eq_refl)).
  reflexivity.
Defined.

(** ** Startup *)

Lemma fold_max_snoc (l : list Z) (i k : Z) :
  fold_left Z.max (l ++ [k]) i = Z.max (fold_left Z.max l i) k.
Proof. now rewrite fold_left_app. Qed.

Lemma next_id_snoc (ids : list Z) :
  next_id (ids ++ [next_id ids]) = next_id ids + 1.
Proof.
  destruct ids as [|i rest]; [reflexivity|].
  unfold next_id. cbn [app]. rewrite fold_max_snoc. lia.
Qed.

Lemma isbn_taken_snoc (bs : list Book.t) (b : Book.t) (s : string) :
  isbn_taken (bs ++ [b]) None (Some s) =
  isbn_taken bs None (Some s) || opt_str_eqb (Book.isbn b) (Some s).
Proof.
  unfold isbn_taken. rewrite existsb_app. simpl. now rewrite orb_false_r.
Qed.

(** X12. [init_db] seeds only a store without authors.  With an author
    present it changes nothing.  With none, and neither sample isbn held
    by a stored book, it adds authors 1 and 2 and, after the books already
    there, the two sample books under the next two book ids, the first
    owned by author 1 and the second by author 2. *)
Theorem init_db_seeds (st : store) (now1 now2 : Datetime.t) :
  (authors st <> [] -> init_db st now1 now2 = (None, st))
  /\ (authors st = [] ->
      isbn_taken (books st) None (Some "978-1593279288") = false ->
      isbn_taken (books st) None (Some "978-1491991732") = false ->
      let k := next_id (map Book.id (books st)) in
      init_db st now1 now2 =
        (None,
         mkStore
           [Author.mk 1 (Some "Eric Matthes") (Some "Python Expert")
                      (Some "Chicago");
            Author.mk 2 (Some "Miguel Grinberg") (Some "Flask Guru")
                      (Some "Dublin")]
           (books st ++
            [Book.mk k (Some "Python Crash Course") (Some 2019)
                     (Some "978-1593279288") (Some now1) (Some 1);
             Book.mk (k + 1) (Some "Flask Web Development") (Some 2018)
                     (Some "978-1491991732") (Some now2) (Some 2)]))).
Proof.
  split.
  - intros H. unfold init_db. destruct (authors st); [contradiction | reflexivity].
  - destruct st as [au bk]. cbn [authors books]. intros -> H1 H2. cbv zeta.
    unfold init_db, commit, flush, exec.
    cbn [authors books List.length Nat.eqb is_null map app next_id fold_left
         nth orb].
    repeat match goal with
           | |- context [negb (binds ?x && binds ?y)] =>
               change (negb (binds x && binds y)) with false
           end.
    rewrite H1. cbn [authors books]. rewrite isbn_taken_snoc, H2.
    cbn [Book.isbn opt_str_eqb].
    change ("978-1593279288" =? "978-1491991732")%string with false.
    cbn [orb]. rewrite map_app. cbn [map Book.id].
    rewrite next_id_snoc. rewrite <- app_assoc. reflexivity.
Qed.

Lemma init_db_seeds_witness :
  init_db demo_store t0 t0 = (None, demo_store)
  /\ init_db empty_store t0 t0 = (None, demo_store).
Proof.
  split.
  - apply (proj1 (init_db_seeds demo_store t0 t0)). discriminate.
  - exact (proj2 (init_db_seeds empty_store t0 t0) eq_refl eq_refl eq_refl).
Defined.

(** X13. Seeding is two transactions.  In a store without authors where a
    stored book already holds one of the two sample isbns, [init_db]
    commits the two sample authors and then stops on the
    [IntegrityError] of the book insert: the authors stay, no sample book
    is added, and because authors now exist no later startup seeds
    again. *)
Theorem init_db_partial (st : store) (now1 now2 : Datetime.t) :
  authors st = [] ->
  isbn_taken (books st) None (Some "978-1593279288")
  || isbn_taken (books st) None (Some "978-1491991732") = true ->
  let st' := mkStore
               [Author.mk 1 (Some "Eric Matthes") (Some "Python Expert")
                          (Some "Chicago");
                Author.mk 2 (Some "Miguel Grinberg") (Some "Flask Guru")
                          (Some "Dublin")]
               (books st) in
  init_db st now1 now2 = (Some IntegrityError, st')
  /\ forall now3 now4, init_db st' now3 now4 = (None, st').
Proof.
  destruct st as [au bk]. cbn [authors books]. intros -> Htaken. cbv zeta.
  split; [| reflexivity].
  unfold init_db, commit, flush, exec.
  cbn [authors books List.length Nat.eqb is_null map app next_id fold_left
       nth orb].
  repeat match goal with
         | |- context [negb (binds ?x && binds ?y)] =>
             change (negb (binds x && binds y)) with false
         end.
  destruct (isbn_taken bk None (Some "978-1593279288")) eqn:H1;
    [reflexivity|].
  cbn [orb] in Htaken. cbn [authors books].
  rewrite isbn_taken_snoc, Htaken. reflexivity.
Qed.

Lemma init_db_partial_witness :
  let st :=
    snd (delete_author
           (snd (delete_author
                   (snd (update_book demo_store 1
                           (Some (BookData.mk Absent (Val 99) Absent Absent))))
                   1)) 2) in
  authors st = []
  /\ books st = [Book.mk 1 (Some "Python Crash Course") (Some 2019)
                         (Some "978-1593279288") (Some t0) (Some 99)]
  /\ fst (init_db st t0 t0) = Some IntegrityError
  /\ books (snd (init_db st t0 t0)) = books st.
Proof.
  intros st. split; [reflexivity|]. split; [reflexivity|].
  rewrite (proj1 (init_db_partial st t0 t0 eq_refl eq_refl)).
  split; reflexivity.
Defined.

(** ** Listing and fetching *)

(** X14. In a store with distinct primary keys, every author and every
    book that the list routes show can be fetched by its id, and the get
    route returns the very serialisation the list carries for it. *)
Theorem listed_rows_fetch (st : store) :
  wf_store st ->
  (forall a, In a (authors st) ->
     In (Author_to_dict st a) (map (Author_to_dict st) (authors st))
     /\ get_author st (Author.id a) =
          Jsonify (JDict [("success", JBool true);
                          ("author", Author_to_dict st a)]) 200)
  /\ (forall b, In b (books st) ->
        In (Book.to_dict b) (map Book.to_dict (books st))
        /\ get_book st (Book.id b) =
             Jsonify (JDict [("success", JBool true);
                             ("book", Book.to_dict b)]) 200).
Proof.
  intros (Hau & Hbk & _). split.
  - intros a Ha. split; [now apply in_map|].
    unfold get_author. destruct (Author_get st (Author.id a)) as [x|] eqn:Hx.
    + apply Author_get_some in Hx. destruct Hx as [Hin Hid].
      now rewrite (NoDup_map_inj Author.id (authors st) x a Hau Hin Ha Hid).
    + exfalso. exact (proj1 (Author_get_none st _) Hx a Ha eq_refl).
  - intros b Hb. split; [now apply in_map|].
    unfold get_book. destruct (Book_get st (Book.id b)) as [x|] eqn:Hx.
    + apply Book_get_some in Hx. destruct Hx as [Hin Hid].
      now rewrite (NoDup_map_inj Book.id (books st) x b Hbk Hin Hb Hid).
    + exfalso. exact (proj1 (Book_get_none st _) Hx b Hb eq_refl).
Qed.

Lemma demo_store_wf : wf_store demo_store.
Proof. apply init_db_wf, empty_store_wf. Qed.

Lemma listed_rows_fetch_witness :
  get_book demo_store 2 =
    Jsonify (JDict [("success", JBool true);
                    ("book",
                     Book.to_dict
                       (Book.mk 2 (Some "Flask Web Development") (Some 2018)
                                (Some "978-1491991732") (Some t0) (Some 2)))])
            200.
Proof.
  exact (proj2 (proj2 (listed_rows_fetch demo_store demo_store_wf)
                  (Book.mk 2 (Some "Flask Web Development") (Some 2018)
                           (Some "978-1491991732") (Some t0) (Some 2))
                  (or_intror (or_introl eq_refl)))).
Defined.

Lemma reachable_wf_witness : wf_store (snd (handle demo_store (DELETE_book 1))).
Proof.
  apply reachable_wf. apply reach_step. apply (reach_init t0 t0).
Defined.

Lemma handle_no_orphans_witness :
  no_orphans (snd (handle demo_store (DELETE_author 1))).
Proof.
  apply (handle_no_orphans demo_store (DELETE_author 1)).
  - apply seed_no_orphans.
  - reflexivity.
Defined.

(** ** What no request changes *)

Lemma find_filter_key (g : Z -> bool) (l : list Book.t) (k : Z) :
  find (fun b => (Book.id b =? k)%Z) (filter (fun b => g (Book.id b)) l) =
  if g k then find (fun b => (Book.id b =? k)%Z) l else None.
Proof.
  induction l as [|x l IH]; simpl; [now destruct (g k)|].
  destruct (Z.eqb_spec (Book.id x) k) as [E|E].
  - rewrite E. destruct (g k) eqn:Hg; simpl.
    + now rewrite E, Z.eqb_refl.
    + exact IH.
  - destruct (g (Book.id x)); simpl; [| exact IH].
    destruct (Z.eqb_spec (Book.id x) k); [contradiction | exact IH].
Qed.

(** The books table after a request: untouched, grown by one row under a
    fresh id, one id's rows replaced by the patched row of an update, or
    thinned by a test on the id. *)
Lemma handle_books (st : store) (r : request) :
  books (snd (handle st r)) = books st
  \/ (exists new, books (snd (handle st r)) = books st ++ [new])
  \/ (exists id d x, r = PUT_book id (Some d) /\ Book_get st id = Some x
                     /\ books (snd (handle st r)) =
                        replace_book (patched_book d x) (books st))
  \/ (exists g, books (snd (handle st r)) =
                filter (fun b => g (Book.id b)) (books st)).
Proof.
  destruct r as [ | id | data | id data | id | | id | data now | id data | id
                  | q a ]; simpl; unfold by_id;
    try destruct (fits_int64 id); simpl; auto.
  - unfold create_author. destruct data as [d|]; auto.
    destruct (_ || _); auto.
    unfold commit, flush, exec. destruct (is_null _); auto.
  - destruct (Author_get st id) as [x|] eqn:Hget;
      [| unfold update_author; rewrite Hget; auto].
    destruct data as [d|]; [| unfold update_author; rewrite Hget; auto].
    rewrite (update_author_cases st id x d Hget).
    destruct (is_null _); auto.
  - unfold delete_author. destruct (Author_get st id) as [x|]; auto.
    rewrite commit_delete_author. simpl. right. right. right.
    exists (fun k => negb (existsb (Z.eqb k)
                             (map Book.id (Author_books st x)))).
    reflexivity.
  - unfold create_book. destruct data as [d|]; auto.
    destruct (_ || _ || _); auto.
    destruct (negb (binds _)); auto.
    destruct (match dict_item _ with Some _ => _ | None => _ end); auto.
    unfold commit, flush, exec. destruct (negb (_ && _)); auto.
    destruct (_ || _); auto.
    destruct (isbn_taken _ _ _); auto. simpl. right. left. eauto.
  - destruct (Book_get st id) as [x|] eqn:Hget;
      [| unfold update_book; rewrite Hget; auto].
    destruct data as [d|]; [| unfold update_book; rewrite Hget; auto].
    rewrite (update_book_cases st id x d Hget).
    destruct (negb (_ && _)); auto.
    destruct (_ || _ || _); auto. simpl. right. right. left.
    exists id, d, x. auto.
  - unfold delete_book. destruct (Book_get st id) as [x|]; auto.
    simpl. right. right. right.
    exists (fun k => negb (k =? Book.id x)%Z). reflexivity.
Qed.

(** X15. No request rewrites a stored book except an update of that
    book: if an id fetches a book before a request and still fetches one
    after it, the two rows are equal unless the request is a PUT of that
    id, and even then the id and [created_at] are the same. *)
Theorem stored_book_identity (st : store) (r : request) (id : Z)
        (b b' : Book.t) :
  Book_get st id = Some b ->
  Book_get (snd (handle st r)) id = Some b' ->
  Book.id b' = Book.id b
  /\ Book.created_at b' = Book.created_at b
  /\ ((forall data, r <> PUT_book id data) -> b' = b).
Proof.
  intros Hget Hget'. unfold Book_get in Hget'.
  destruct (handle_books st r)
    as [E | [[new E] | [(id0 & d & x & Hr & Hx & E) | [g E]]]];
    rewrite E in Hget'.
  - assert (b' = b) by (unfold Book_get in Hget; congruence). subst. auto.
  - unfold Book_get in Hget. rewrite (find_app_some _ _ _ _ Hget) in Hget'.
    injection Hget' as <-. auto.
  - destruct (Z.eq_dec id id0) as [<-|Hne].
    + assert (x = b) by congruence. subst x.
      erewrite find_replace_book_same in Hget'; [| | exact Hget].
      * injection Hget' as <-.
        pose proof (patched_book_frame d b) as (Hi & Hc & _).
        split; [exact Hi|]. split; [exact Hc|].
        intros Hr'. exfalso. exact (Hr' (Some d) Hr).
      * rewrite patched_book_merged. simpl.
        now apply Book_get_some in Hget.
    + rewrite find_replace_book_other in Hget'.
      * assert (b' = b) by (unfold Book_get in Hget; congruence). subst. auto.
      * rewrite patched_book_merged. simpl.
        apply Book_get_some in Hx. destruct Hx as [_ ->]. exact Hne.
  - rewrite find_filter_key in Hget'. destruct (g id); [| discriminate].
    assert (b' = b) by (unfold Book_get in Hget; congruence). subst. auto.
Qed.

Lemma stored_book_identity_witness :
  let r := PUT_book 1 (Some (BookData.mk (Val "PCC") (Val 2) (Val 2024) Null)) in
  let b := Book.mk 1 (Some "Python Crash Course") (Some 2019)
                   (Some "978-1593279288") (Some t0) (Some 1) in
  let b' := Book.mk 1 (Some "PCC") (Some 2024) None (Some t0) (Some 2) in
  Book.id b' = Book.id b /\ Book.created_at b' = Book.created_at b.
Proof.
  cbv zeta.
  pose proof (stored_book_identity demo_store
                (PUT_book 1 (Some (BookData.mk (Val "PCC") (Val 2) (Val 2024)
                                               Null)))
                1
                (Book.mk 1 (Some "Python Crash Course") (Some 2019)
                         (Some "978-1593279288") (Some t0) (Some 1))
                (Book.mk 1 (Some "PCC") (Some 2024) None (Some t0) (Some 2))
                eq_refl eq_refl) as (H1 & H2 & _).
  split; [exact H1 | exact H2].
Defined.

(** ** Serialisation *)

Lemma opt_json_str_inj (x y : option string) :
  opt_json JStr x = opt_json JStr y -> x = y.
Proof. destruct x, y; simpl; intros H; congruence. Qed.

Lemma opt_json_int_inj (x y : option Z) :
  opt_json JInt x = opt_json JInt y -> x = y.
Proof. destruct x, y; simpl; intros H; congruence. Qed.

(** X16. The serialised form of a book determines its id, title,
    author_id, year and isbn (a null column and a present value are never
    confused), and the rendered [created_at] or its absence. *)
Theorem Book_to_dict_determines (b1 b2 : Book.t) :
  Book.to_dict b1 = Book.to_dict b2 ->
  Book.id b1 = Book.id b2
  /\ Book.title b1 = Book.title b2
  /\ Book.author_id b1 = Book.author_id b2
  /\ Book.year b1 = Book.year b2
  /\ Book.isbn b1 = Book.isbn b2
  /\ option_map Datetime.isoformat (Book.created_at b1) =
     option_map Datetime.isoformat (Book.created_at b2).
Proof.
  unfold Book.to_dict. intros H.
  injection H as Hid Ht Ha Hy Hi Hc.
  apply opt_json_str_inj in Ht, Hi. apply opt_json_int_inj in Ha, Hy.
  repeat split; try assumption.
  destruct (Book.created_at b1), (Book.created_at b2); simpl; congruence.
Qed.

Lemma Book_to_dict_determines_witness :
  let b1 := Book.mk 2 (Some "Flask Web Development") (Some 2018) None
                    (Some (Datetime.mk 2024 1 15 10 30 0 0)) (Some 2) in
  let b2 := Book.mk 2 (Some "Flask Web Development") (Some 2018) None
                    (Some (Datetime.mk 2024 1 15 10 30 0 0)) (Some 2) in
  Book.isbn b1 = Book.isbn b2 /\ Book.year b1 = Book.year b2.
Proof.
  cbv zeta.
  destruct (Book_to_dict_determines
              (Book.mk 2 (Some "Flask Web Development") (Some 2018) None
                       (Some (Datetime.mk 2024 1 15 10 30 0 0)) (Some 2))
              (Book.mk 2 (Some "Flask Web Development") (Some 2018) None
                       (Some (Datetime.mk 2024 1 15 10 30 0 0)) (Some 2))
              eq_refl) as (_ & _ & _ & Hy & Hi & _).
  split; [exact Hi | exact Hy].
Defined.

(** ** Wildcards and case in the title filter *)

Section Patterns.

Local Open Scope string_scope.




Lemma lower_nonempty (s : string) : lower s = "" <-> s = "".
Proof. destruct s; simpl; split; intros H; congruence. Qed.

(** X18. The case of the title filter does not matter, wildcards or not:
    two filters that differ only in the case of ASCII letters give the
    same search response, whatever the author filter. *)
Theorem search_filter_case (st : store) (q q' : string) (a : option string) :
  lower q = lower q' ->
  search_books st (Some q) a = search_books st (Some q') a.
Proof.
  intros Hq. unfold search_books, search_rows.
  assert (Ht : truthy_str (Some q) = truthy_str (Some q')).
  { simpl. f_equal.
    destruct (String.eqb_spec q ""), (String.eqb_spec q' "");
      try reflexivity; exfalso.
    - subst q. simpl in Hq. symmetry in Hq.
      apply (proj1 (lower_nonempty _)) in Hq. contradiction.
    - subst q'. simpl in Hq.
      apply (proj1 (lower_nonempty _)) in Hq. contradiction. }
  rewrite Ht.
  assert (Hf : forall l : list Book.t,
             filter (fun b => ilike (Book.title b) ("%" ++ q ++ "%")) l =
             filter (fun b => ilike (Book.title b) ("%" ++ q' ++ "%")) l).
  { intros l. apply filter_ext. intros b. unfold ilike.
    destruct (Book.title b); [| reflexivity].
    simpl lower. now rewrite !lower_app, Hq. }
  now rewrite Hf.
Qed.

Lemma search_filter_case_witness :
  search_books demo_store (Some "FLASK") (Some "2") =
  search_books demo_store (Some "flask") (Some "2").
Proof.
  apply (search_filter_case demo_store "FLASK" "flask" (Some "2")).
  reflexivity.
Defined.

End Patterns.

(** ** A new author's books *)

Lemma filter_nil_iff {R} (keep : R -> bool) (rows : list R) :
  (forall x, In x rows -> keep x = false) -> filter keep rows = [].
Proof.
  induction rows as [|x rows IH]; simpl; intros H; [reflexivity|].
  rewrite (H x (or_introl eq_refl)). apply IH. intros y Hy. apply H. now right.
Qed.

(** X19. The [books] of a newly created author are the stored books that
    already name the id it receives.  In a store without orphans there is
    none, so the 201 response lists no books; an orphan left by an
    earlier update is adopted by the author that gets its id. *)
Theorem create_author_books (st : store) (d : AuthorData.t) (n : string) :
  AuthorData.name d = Val n -> n <> "" ->
  let k := next_id (map Author.id (authors st)) in
  let new := Author.mk k (Some n) (dict_get (AuthorData.bio d))
                       (dict_get (AuthorData.city d)) in
  let st' := snd (create_author st (Some d)) in
  Author_books st' new =
    filter (fun b => opt_Z_eqb (Book.author_id b) (Some k)) (books st)
  /\ (no_orphans st -> Author_books st' new = []).
Proof.
  intros Hn Hne. cbv zeta.
  assert (Hst : books (snd (create_author st (Some d))) = books st).
  { unfold create_author. destruct (_ || _); [reflexivity|].
    unfold commit, flush, exec. destruct (is_null _); reflexivity. }
  unfold Author_books. rewrite Hst. simpl Author.id.
  split; [reflexivity|].
  intros Hno. apply filter_nil_iff. intros b Hb.
  destruct (opt_Z_eqb _ _) eqn:E; [| reflexivity].
  apply opt_Z_eqb_eq in E. specialize (Hno b Hb). unfold orphan in Hno.
  rewrite E, Author_get_fresh in Hno. discriminate.
Qed.

Lemma create_author_books_witness :
  let st := snd (update_book demo_store 1
                   (Some (BookData.mk Absent (Val 3) Absent Absent))) in
  let d := AuthorData.mk (Val "Luciano Ramalho") Absent Absent in
  Author_books (snd (create_author st (Some d)))
    (Author.mk 3 (Some "Luciano Ramalho") None None) =
  [Book.mk 1 (Some "Python Crash Course") (Some 2019)
           (Some "978-1593279288") (Some t0) (Some 3)].
Proof.
  intros st d.
  assert (Hne : "Luciano Ramalho" <> "") by discriminate.
  exact (proj1 (create_author_books st d "Luciano Ramalho" eq_refl Hne)).
Defined.
